(** * Access resolution and visibility predicates of tududi

    A shallow embedding of [backend/services/permissionsService.js]:
    [getSharedUidsForUser], [getAccess] and [ownershipOrPermissionWhere],
    over a snapshot of the four tables the service reads
    ([Project], [Task], [Note], [Permission]) and the admin oracle
    [isAdmin] of [rolesService]. *)

From Stdlib Require Import ZArith List String Bool Lia.
Import ListNotations.

Local Open Scope string_scope.
Local Open Scope Z_scope.

(** ** Access levels: [const ACCESS = { NONE, RO, RW, ADMIN }] *)

Module ACCESS.
Definition NONE : string := "none".
Definition RO : string := "ro".
Definition RW : string := "rw".
Definition ADMIN : string := "admin".
End ACCESS.

(** ** The tables, restricted to the attributes the service reads *)

Record ProjectRow := mkProject {
  p_id : Z;
  p_uid : string;
  p_user_id : Z
}.

(** A row of [Task] or of [Note]: both models are read through the same
    attributes, [uid], [user_id] and the nullable [project_id]. *)
Record ItemRow := mkItem {
  i_uid : string;
  i_user_id : Z;
  i_project_id : option Z
}.

Record PermissionRow := mkPermission {
  perm_user_id : Z;
  perm_resource_type : string;
  perm_resource_uid : string;
  perm_access_level : string
}.

Record Store := mkStore {
  Projects : list ProjectRow;
  Tasks : list ItemRow;
  Notes : list ItemRow;
  Permissions : list PermissionRow
}.

(** ** Where clauses, as the service builds them *)

Inductive Condition :=
| user_id_eq (userId : Z)            (* { user_id: userId } *)
| uid_in (uids : list string)        (* { uid: { [Op.in]: uids } } *)
| uid_null                           (* { uid: null } *)
| project_id_in (ids : list Z).      (* { project_id: { [Op.in]: ids } } *)

Inductive WhereClause :=
| NoRestriction                      (* {} *)
| OpOr (conditions : list Condition). (* { [Op.or]: conditions } *)

(** The columns of a listed row a where clause can mention. *)
Record RowView := mkView {
  v_uid : string;
  v_user_id : Z;
  v_project_id : option Z
}.

Definition viewOfProject (p : ProjectRow) : RowView :=
  mkView (p_uid p) (p_user_id p) None.

Definition viewOfItem (i : ItemRow) : RowView :=
  mkView (i_uid i) (i_user_id i) (i_project_id i).

Definition mem_string (s : string) (l : list string) : bool :=
  existsb (String.eqb s) l.

Definition mem_Z (z : Z) (l : list Z) : bool :=
  existsb (Z.eqb z) l.

(** SQL reading of one condition on a row whose [uid] is not null: a null
    [project_id] is in no list, and [uid IS NULL] holds of no such row. *)
Definition evalCondition (c : Condition) (r : RowView) : bool :=
  match c with
  | user_id_eq u => v_user_id r =? u
  | uid_in uids => mem_string (v_uid r) uids
  | uid_null => false
  | project_id_in ids =>
      match v_project_id r with
      | Some pid => mem_Z pid ids
      | None => false
      end
  end.

Definition evalWhere (w : WhereClause) (r : RowView) : bool :=
  match w with
  | NoRestriction => true
  | OpOr conditions => existsb (fun c => evalCondition c r) conditions
  end.

(** [Array.from(new Set(xs))]: the distinct elements, in order of first
    occurrence. *)
Definition arrayFromSet (xs : list string) : list string :=
  fold_left (fun seen x => if mem_string x seen then seen else (seen ++ [x])%list)
            xs [].

(** JavaScript truthiness of a nullable integer column. *)
Definition truthy (v : option Z) : bool :=
  match v with
  | Some z => negb (z =? 0)
  | None => false
  end.

Section PermissionsService.

(** [isAdmin] of [rolesService], taken as an oracle. *)
Variable isAdmin : Z -> bool.
Variable db : Store.

(** *** The queries the service issues *)

Definition Project_findOne_uid (uid : string) : option ProjectRow :=
  find (fun p => p_uid p =? uid)%string (Projects db).

Definition Project_findOne_id (id : Z) : option ProjectRow :=
  find (fun p => p_id p =? id) (Projects db).

Definition Project_findAll_uid_in (uids : list string) : list ProjectRow :=
  filter (fun p => mem_string (p_uid p) uids) (Projects db).

Definition Task_findOne_uid (uid : string) : option ItemRow :=
  find (fun t => i_uid t =? uid)%string (Tasks db).

Definition Note_findOne_uid (uid : string) : option ItemRow :=
  find (fun n => i_uid n =? uid)%string (Notes db).

Definition Permission_findAll (userId : Z) (resourceType : string)
  : list PermissionRow :=
  filter (fun r => (perm_user_id r =? userId)
                   && (perm_resource_type r =? resourceType)%string)
         (Permissions db).

Definition Permission_findOne (userId : Z) (resourceType resourceUid : string)
  : option PermissionRow :=
  find (fun r => (perm_user_id r =? userId)
                 && (perm_resource_type r =? resourceType)%string
                 && (perm_resource_uid r =? resourceUid)%string)
       (Permissions db).

(** *** [getSharedUidsForUser] *)

Definition getSharedUidsForUser (resourceType : string) (userId : Z)
  : list string :=
  let rows := Permission_findAll userId resourceType in
  arrayFromSet (map perm_resource_uid rows).

(** *** The tail of [getAccess], under the comment [// shared] *)

Definition sharedAccess (userId : Z) (resourceType resourceUid : string)
  : string :=
  match Permission_findOne userId resourceType resourceUid with
  | Some perm => perm_access_level perm
  | None => ACCESS.NONE
  end.

(** *** [getAccess]

    The function calls itself, so the embedding recurses on a bound
    [fuel] on the depth of nested calls; [None] is "bound exhausted".
    Two levels always suffice, as is proved below. *)

Fixpoint getAccess_fuel (fuel : nat) (userId : Z)
         (resourceType resourceUid : string) {struct fuel} : option string :=
  match fuel with
  | O => None
  | S fuel' =>
    if isAdmin userId then Some ACCESS.ADMIN
    else if (resourceType =? "project")%string then
      match Project_findOne_uid resourceUid with
      | None => Some ACCESS.NONE
      | Some proj =>
        if p_user_id proj =? userId then Some ACCESS.RW
        else Some (sharedAccess userId resourceType resourceUid)
      end
    else if (resourceType =? "task")%string then
      match Task_findOne_uid resourceUid with
      | None => Some ACCESS.NONE
      | Some t =>
        if i_user_id t =? userId then Some ACCESS.RW
        else
          match (if truthy (i_project_id t) then i_project_id t else None) with
          | Some project_id =>
            match Project_findOne_id project_id with
            | Some project =>
              match getAccess_fuel fuel' userId "project" (p_uid project) with
              | None => None
              | Some projectAccess =>
                if negb (projectAccess =? ACCESS.NONE)%string
                then Some projectAccess
                else Some (sharedAccess userId resourceType resourceUid)
              end
            | None => Some (sharedAccess userId resourceType resourceUid)
            end
          | None => Some (sharedAccess userId resourceType resourceUid)
          end
      end
    else if (resourceType =? "note")%string then
      match Note_findOne_uid resourceUid with
      | None => Some ACCESS.NONE
      | Some n =>
        if i_user_id n =? userId then Some ACCESS.RW
        else
          match (if truthy (i_project_id n) then i_project_id n else None) with
          | Some project_id =>
            match Project_findOne_id project_id with
            | Some project =>
              match getAccess_fuel fuel' userId "project" (p_uid project) with
              | None => None
              | Some projectAccess =>
                if negb (projectAccess =? ACCESS.NONE)%string
                then Some projectAccess
                else Some (sharedAccess userId resourceType resourceUid)
              end
            | None => Some (sharedAccess userId resourceType resourceUid)
            end
          | None => Some (sharedAccess userId resourceType resourceUid)
          end
      end
    else Some (sharedAccess userId resourceType resourceUid)
  end.

(** One call from outside, with room for the single nested call. *)
Definition getAccess (userId : Z) (resourceType resourceUid : string)
  : option string :=
  getAccess_fuel 2 userId resourceType resourceUid.

(** *** [ownershipOrPermissionWhere] *)

Definition sharedProjectIds (userId : Z) : list Z :=
  let sharedProjectUids := getSharedUidsForUser "project" userId in
  if (0 <? List.length sharedProjectUids)%nat
  then map p_id (Project_findAll_uid_in sharedProjectUids)
  else [].

Definition ownershipOrPermissionWhere (resourceType : string) (userId : Z)
  : WhereClause :=
  if isAdmin userId then NoRestriction
  else
    let sharedUids := getSharedUidsForUser resourceType userId in
    if (resourceType =? "task")%string || (resourceType =? "note")%string
    then
      let conditions := [user_id_eq userId] in
      let conditions :=
        if (0 <? List.length sharedUids)%nat
        then (conditions ++ [uid_in sharedUids])%list else conditions in
      let conditions :=
        if (0 <? List.length (sharedProjectIds userId))%nat
        then (conditions ++ [project_id_in (sharedProjectIds userId)])%list
        else conditions in
      OpOr conditions
    else
      OpOr [ user_id_eq userId;
             if (0 <? List.length sharedUids)%nat
             then uid_in sharedUids else uid_null ].

End PermissionsService.

(** ** Store invariants of the data model

    A [uid] is unique within its type; the internal [id] of a project is a
    unique, auto-incremented primary key, hence never 0. *)

Definition uniqueUids (db : Store) : Prop :=
  NoDup (map p_uid (Projects db)) /\
  NoDup (map i_uid (Tasks db)) /\
  NoDup (map i_uid (Notes db)).

Definition validKeys (db : Store) : Prop :=
  NoDup (map p_id (Projects db)) /\
  Forall (fun p => p_id p <> 0) (Projects db).

Definition StoreOK (db : Store) : Prop :=
  uniqueUids db /\ validKeys db.

(** The resource types [getAccess] looks up in a table of their own. *)
Definition knownType (resourceType : string) : bool :=
  ((resourceType =? "project") || (resourceType =? "task")
   || (resourceType =? "note"))%string.

(** Whether a resource of the given type carries the given [uid]. *)
Definition resourceExists (db : Store) (resourceType uid : string) : bool :=
  if (resourceType =? "project")%string
  then existsb (fun p => p_uid p =? uid)%string (Projects db)
  else if (resourceType =? "task")%string
  then existsb (fun t => i_uid t =? uid)%string (Tasks db)
  else if (resourceType =? "note")%string
  then existsb (fun n => i_uid n =? uid)%string (Notes db)
  else false.

(** ** The scenario of the specification

    User 1 (A) owns project [p1]; task [t1] lies in [p1] and is owned by
    user 2 (B); user 3 (C) holds a read-only grant on [p1]; user 4 (D) is
    unrelated. Nobody is an administrator. *)

Definition nobodyAdmin (_ : Z) : bool := false.

Definition scenario : Store :=
  mkStore [mkProject 10 "p1" 1]
          [mkItem "t1" 2 (Some 10)]
          []
          [mkPermission 3 "project" "p1" "ro"].

Definition onlyAdmin (admin : Z) (u : Z) : bool := u =? admin.


(** ** Further snapshots used to evaluate the service *)

(** A grant that outlived its project, and a task without one. *)
Definition danglingGrants : Store :=
  mkStore []
          [mkItem "t9" 2 (Some 10)]
          []
          [mkPermission 5 "project" "ghost" "ro";
           mkPermission 5 "area" "a1" "rw"].

(** A grant whose stored level is outside the [ACCESS] values. *)
Definition oddGrant : Store :=
  mkStore [mkProject 10 "p1" 1]
          [mkItem "t1" 2 (Some 10)]
          []
          [mkPermission 3 "task" "t1" "banana"].

(** ** The body shared by the task and note branches of [getAccess]

    What the branch computes from the row [Task.findOne] or [Note.findOne]
    returned, once the admin test has failed. The two branches of the source
    differ only in the table queried. *)
Definition itemAccess (isAdmin : Z -> bool) (db : Store) (userId : Z)
           (resourceType resourceUid : string) (row : option ItemRow)
  : option string :=
  match row with
  | None => Some ACCESS.NONE
  | Some x =>
    if i_user_id x =? userId then Some ACCESS.RW
    else
      match (if truthy (i_project_id x) then i_project_id x else None) with
      | Some project_id =>
        match Project_findOne_id db project_id with
        | Some project =>
          match getAccess isAdmin db userId "project" (p_uid project) with
          | None => None
          | Some projectAccess =>
            if negb (projectAccess =? ACCESS.NONE)%string
            then Some projectAccess
            else Some (sharedAccess db userId resourceType resourceUid)
          end
        | None => Some (sharedAccess db userId resourceType resourceUid)
        end
      | None => Some (sharedAccess db userId resourceType resourceUid)
      end
  end.

(** ** Reaching the explicit-grant lookup

    [reachesShared] follows the control flow of [getAccess] and tells
    whether the call arrives at the statements under [// shared], that is,
    returns from none of the branches above them. *)

Definition itemReachesShared (isAdmin : Z -> bool) (db : Store) (userId : Z)
           (row : option ItemRow) : bool :=
  match row with
  | None => false
  | Some x =>
    if i_user_id x =? userId then false
    else
      match (if truthy (i_project_id x) then i_project_id x else None) with
      | Some project_id =>
        match Project_findOne_id db project_id with
        | Some project =>
          match getAccess isAdmin db userId "project" (p_uid project) with
          | None => false
          | Some projectAccess => (projectAccess =? ACCESS.NONE)%string
          end
        | None => true
        end
      | None => true
      end
  end.

Definition reachesShared (isAdmin : Z -> bool) (db : Store) (userId : Z)
           (resourceType resourceUid : string) : bool :=
  if isAdmin userId then false
  else if (resourceType =? "project")%string then
    match Project_findOne_uid db resourceUid with
    | None => false
    | Some proj => negb (p_user_id proj =? userId)
    end
  else if (resourceType =? "task")%string then
    itemReachesShared isAdmin db userId (Task_findOne_uid db resourceUid)
  else if (resourceType =? "note")%string then
    itemReachesShared isAdmin db userId (Note_findOne_uid db resourceUid)
  else true.

(** ** Shapes of conditions in a disjunction *)

(** An [Op.in] over an empty list. *)
Definition emptySetClause (c : Condition) : bool :=
  match c with
  | uid_in [] => true
  | project_id_in [] => true
  | _ => false
  end.

(** The clause [{ uid: null }], which stands where [uid IN sharedUids]
    would. *)
Definition substituteClause (c : Condition) : bool :=
  match c with
  | uid_null => true
  | _ => false
  end.

Definition isProjectIdClause (c : Condition) : bool :=
  match c with
  | project_id_in _ => true
  | _ => false
  end.

(** The disjunction in the words of the specification: the owner
    condition, then [uid IN sharedUids] if that set is not empty, then, for
    tasks and notes, [project_id IN sharedProjectIds] if that set is not
    empty. *)
Definition specConditions (db : Store) (resourceType : string) (userId : Z)
  : list Condition :=
  ([user_id_eq userId]
   ++ (if (0 <? List.length (getSharedUidsForUser db resourceType userId))%nat
       then [uid_in (getSharedUidsForUser db resourceType userId)] else [])
   ++ (if ((resourceType =? "task") || (resourceType =? "note"))%string
          && (0 <? List.length (sharedProjectIds db userId))%nat
       then [project_id_in (sharedProjectIds db userId)] else []))%list.

(** ** Grants of one user *)

(** The rows of [Permission] that belong to a user. *)
Definition grantsOf (userId : Z) (db : Store) : list PermissionRow :=
  filter (fun r => perm_user_id r =? userId) (Permissions db).

(** Some grant to the user names this resource. *)
Definition granted (db : Store) (userId : Z) (resourceType uid : string)
  : Prop :=
  exists g, In g (Permissions db) /\ perm_user_id g = userId /\
            perm_resource_type g = resourceType /\
            perm_resource_uid g = uid.

(** * The session routes: [/current_user] and [/login]

    The handlers are embedded as functions from the request (body and
    session), the [User] table and the outcome of [req.session.save] to the
    response sent, the session left on the request and the lines logged.
    [User.checkPassword] and [isAdmin] are oracles. *)

Module Auth.

Record UserRow := mkUser {
  u_id : Z;
  u_uid : string;
  u_email : string;
  u_name : option string;
  u_surname : option string;
  u_language : option string;
  u_appearance : option string;
  u_timezone : option string;
  u_password_digest : string
}.

(** The object sent under the key [user]. *)
Record UserJson := mkUserJson {
  j_uid : string;
  j_email : string;
  j_name : option string;
  j_surname : option string;
  j_language : option string;
  j_appearance : option string;
  j_timezone : option string;
  j_is_admin : bool
}.

Inductive Body :=
| JUser (user : option UserJson)     (* { user: {...} } or { user: null } *)
| JError (error : string)            (* { error: ... } *)
| JErrors (errors : list string).    (* { errors: [...] } *)

Record Response := mkResponse {
  status : Z;
  body : Body
}.

(** [req.session], as far as the handlers touch it. *)
Record Session := mkSession {
  userId : option Z
}.

Record Outcome := mkOutcome {
  response : Response;
  session : option Session;   (* [None]: [req.session] is undefined *)
  logged : list string
}.

(** [!v] for a body field that is absent, null or a string. *)
Definition falsy (v : option string) : bool :=
  match v with
  | None => true
  | Some s => (s =? "")%string
  end.

(** The string a field that is not falsy holds. *)
Definition text (v : option string) : string :=
  match v with
  | None => ""
  | Some s => s
  end.

Section Routes.

Variable users : list UserRow.
(** [User.checkPassword(password, digest)] *)
Variable checkPassword : string -> string -> bool.
(** [isAdmin] of [rolesService], called with the uid of the user. *)
Variable isAdmin : string -> bool.


Definition User_findOne_email (email : string) : option UserRow :=
  find (fun u => u_email u =? email)%string users.

(** The object both handlers build from the user row and [admin]. *)
Definition userJson (user : UserRow) (admin : bool) : UserJson :=
  mkUserJson (u_uid user) (u_email user) (u_name user) (u_surname user)
             (u_language user) (u_appearance user) (u_timezone user) admin.


(** The [catch] block of [/login]. *)
Definition loginError (sess : option Session) : Outcome :=
  mkOutcome (mkResponse 500 (JError "Internal server error")) sess
            ["Login error:"].

(** [router.post('/login', ...)]; [saveOk] tells whether
    [req.session.save] calls back without an error. *)
Definition login (saveOk : bool) (email password : option string)
           (sess : option Session) : Outcome :=
  if falsy email || falsy password then
    mkOutcome (mkResponse 400 (JError "Invalid login parameters.")) sess []
  else
    match User_findOne_email (text email) with
    | None =>
      mkOutcome (mkResponse 401 (JErrors ["Invalid credentials"])) sess []
    | Some user =>
      let isValidPassword :=
        checkPassword (text password) (u_password_digest user) in
      if negb isValidPassword then
        mkOutcome (mkResponse 401 (JErrors ["Invalid credentials"])) sess []
      else
        match sess with
        | None => loginError None   (* assignment on undefined throws *)
        | Some _ =>
          let sess' := Some (mkSession (Some (u_id user))) in
          if saveOk then
            let admin := isAdmin (u_uid user) in
            mkOutcome (mkResponse 200 (JUser (Some (userJson user admin))))
                      sess' []
          else loginError sess'
        end
    end.

End Routes.


Definition alice : UserRow :=
  mkUser 1 "u-alice" "alice@example.org" (Some "Alice") None (Some "en")
         None (Some "UTC") "digest-a".

Definition bob : UserRow :=
  mkUser 2 "u-bob" "bob@example.org" None None None None None "digest-b".

(** A password check that accepts one password for one digest. *)
Definition checkDemo (password digest : string) : bool :=
  ((password =? "secret") && (digest =? "digest-a"))%string.

Definition adminDemo (uid : string) : bool := (uid =? "u-bob")%string.

End Auth.
(** * Properties *)

(** ** The scenario, evaluated *)

Example scenario_owner_B :
  getAccess nobodyAdmin scenario 2 "task" "t1" = Some ACCESS.RW.
Proof. reflexivity. Qed.

Example scenario_inherited_C :
  getAccess nobodyAdmin scenario 3 "task" "t1" = Some ACCESS.RO.
Proof. reflexivity. Qed.

Example scenario_project_owner_A :
  getAccess nobodyAdmin scenario 1 "task" "t1" = Some ACCESS.RW.
Proof. reflexivity. Qed.

Example scenario_stranger_D :
  getAccess nobodyAdmin scenario 4 "task" "t1" = Some ACCESS.NONE.
Proof. reflexivity. Qed.

Example scenario_filter_C :
  ownershipOrPermissionWhere nobodyAdmin scenario "task" 3
  = OpOr [user_id_eq 3; project_id_in [10]].
Proof. reflexivity. Qed.

(** ** Queries on lists *)

Section FindLemmas.

Context {A K : Type} (key : A -> K) (eqb : K -> K -> bool).
Hypothesis eqb_spec : forall a b, eqb a b = true <-> a = b.

Lemma find_key_sound (k : K) (l : list A) (r : A) :
  find (fun x => eqb (key x) k) l = Some r -> In r l /\ key r = k.
Proof.
  intros H. apply find_some in H. destruct H as [Hin Hk].
  split; [assumption | now apply eqb_spec].
Qed.

Lemma find_key_unique (l : list A) (r : A) :
  NoDup (map key l) -> In r l ->
  find (fun x => eqb (key x) (key r)) l = Some r.
Proof.
  induction l as [|a l IH]; simpl; intros Hnd Hin; [contradiction|].
  inversion Hnd as [|? ? Hnotin Hnd']; subst.
  destruct Hin as [-> | Hin].
  - replace (eqb (key r) (key r)) with true; [reflexivity|].
    symmetry. now apply eqb_spec.
  - destruct (eqb (key a) (key r)) eqn:E.
    + apply eqb_spec in E. exfalso. apply Hnotin. rewrite E.
      now apply in_map.
    + now apply IH.
Qed.

Lemma find_key_none (k : K) (l : list A) :
  find (fun x => eqb (key x) k) l = None <->
  existsb (fun x => eqb (key x) k) l = false.
Proof.
  induction l as [|a l IH]; simpl; [tauto|].
  destruct (eqb (key a) k); simpl; [split; discriminate | exact IH].
Qed.

End FindLemmas.

Lemma mem_string_In (s : string) (l : list string) :
  mem_string s l = true <-> In s l.
Proof.
  unfold mem_string. rewrite existsb_exists. split.
  - intros [x [Hin Heq]]. apply String.eqb_eq in Heq. now subst.
  - intros Hin. exists s. split; [assumption | apply String.eqb_refl].
Qed.

Lemma mem_Z_In (z : Z) (l : list Z) : mem_Z z l = true <-> In z l.
Proof.
  unfold mem_Z. rewrite existsb_exists. split.
  - intros [x [Hin Heq]]. apply Z.eqb_eq in Heq. now subst.
  - intros Hin. exists z. split; [assumption | apply Z.eqb_refl].
Qed.

(** [arrayFromSet] keeps exactly the elements of its argument. *)
Lemma arrayFromSet_acc (xs seen : list string) (x : string) :
  In x (fold_left
          (fun seen x => if mem_string x seen then seen else (seen ++ [x])%list)
          xs seen)
  <-> In x seen \/ In x xs.
Proof.
  revert seen. induction xs as [|a xs IH]; simpl; intros seen; [tauto|].
  rewrite IH. destruct (mem_string a seen) eqn:E.
  - apply mem_string_In in E. split; [tauto|].
    intros [H | [H | H]]; subst; tauto.
  - rewrite in_app_iff. simpl. tauto.
Qed.

Lemma arrayFromSet_In (xs : list string) (x : string) :
  In x (arrayFromSet xs) <-> In x xs.
Proof. unfold arrayFromSet. rewrite arrayFromSet_acc. simpl. tauto. Qed.

Lemma length_pos_nonempty {A : Type} (l : list A) :
  (0 <? List.length l)%nat = true <-> l <> [].
Proof.
  destruct l as [|a l]; simpl; split; intros H.
  - discriminate.
  - now contradiction H.
  - discriminate.
  - reflexivity.
Qed.

Lemma length_pos_empty {A : Type} (l : list A) :
  (0 <? List.length l)%nat = false <-> l = [].
Proof.
  destruct l as [|a l]; split; intros H;
    try reflexivity; discriminate.
Qed.

(** A uid is among the shared uids exactly when some grant of that type to
    that user names it. *)
Lemma getSharedUidsForUser_In (db : Store) (t : string) (u : Z) (x : string) :
  In x (getSharedUidsForUser db t u) <->
  exists g, In g (Permissions db) /\ perm_user_id g = u /\
            perm_resource_type g = t /\ perm_resource_uid g = x.
Proof.
  unfold getSharedUidsForUser, Permission_findAll.
  rewrite arrayFromSet_In, in_map_iff. split.
  - intros [g [Hx Hin]]. apply filter_In in Hin. destruct Hin as [Hin Hb].
    apply andb_true_iff in Hb. destruct Hb as [Hu Ht].
    apply Z.eqb_eq in Hu. apply String.eqb_eq in Ht. now exists g.
  - intros [g [Hin [Hu [Ht Hx]]]]. exists g. split; [assumption|].
    apply filter_In. split; [assumption|].
    apply andb_true_iff. split; [now apply Z.eqb_eq | now apply String.eqb_eq].
Qed.

(** A grant found by [Permission.findOne] puts its uid among the shared uids. *)
Lemma Permission_findOne_shared (db : Store) (u : Z) (t uid : string)
      (perm : PermissionRow) :
  Permission_findOne db u t uid = Some perm ->
  In uid (getSharedUidsForUser db t u).
Proof.
  unfold Permission_findOne. intros H. apply find_some in H.
  destruct H as [Hin Hb].
  apply andb_true_iff in Hb. destruct Hb as [Hb Hx].
  apply andb_true_iff in Hb. destruct Hb as [Hu Ht].
  apply Z.eqb_eq in Hu. apply String.eqb_eq in Ht. apply String.eqb_eq in Hx.
  apply getSharedUidsForUser_In. now exists perm.
Qed.

(** ** Depth of the recursion in [getAccess] *)

(** On a project the body never reaches the nested call: one level of fuel
    is as good as any. *)
Lemma getAccess_fuel_project (isAdmin : Z -> bool) (db : Store) (n : nat)
      (u : Z) (uid : string) :
  getAccess_fuel isAdmin db (S n) u "project" uid
  = getAccess_fuel isAdmin db 1 u "project" uid.
Proof. reflexivity. Qed.

Lemma getAccess_fuel_project_total (isAdmin : Z -> bool) (db : Store)
      (u : Z) (uid : string) :
  exists v, getAccess_fuel isAdmin db 1 u "project" uid = Some v.
Proof.
  simpl. destruct (isAdmin u); [eauto|].
  destruct (Project_findOne_uid db uid) as [proj|]; [|eauto].
  destruct (p_user_id proj =? u); eauto.
Qed.

(** Past two levels, more fuel changes nothing. *)
Lemma getAccess_fuel_stable (isAdmin : Z -> bool) (db : Store) (n : nat)
      (u : Z) (t uid : string) :
  getAccess_fuel isAdmin db (S (S n)) u t uid
  = getAccess_fuel isAdmin db 2 u t uid.
Proof.
  cbn [getAccess_fuel].
  destruct (isAdmin u); [reflexivity|].
  destruct (t =? "project")%string; [reflexivity|].
  destruct (t =? "task")%string; [reflexivity|].
  destruct (t =? "note")%string; reflexivity.
Qed.

(** A level of fuel above one that answers every project answers
    everything. *)
Lemma getAccess_fuel_total_step (isAdmin : Z -> bool) (db : Store) (m : nat)
      (u : Z) (t uid : string) :
  (forall pu, exists v,
      getAccess_fuel isAdmin db m u "project" pu = Some v) ->
  exists v, getAccess_fuel isAdmin db (S m) u t uid = Some v.
Proof.
  intros Hproj. cbn [getAccess_fuel].
  destruct (isAdmin u); [eauto|].
  destruct (t =? "project")%string.
  { destruct (Project_findOne_uid db uid) as [proj|]; [|eauto].
    destruct (p_user_id proj =? u); eauto. }
  destruct (t =? "task")%string.
  { destruct (Task_findOne_uid db uid) as [x|]; [|eauto].
    destruct (i_user_id x =? u); [eauto|].
    destruct (if truthy (i_project_id x) then i_project_id x else None)
      as [pid|]; [|eauto].
    destruct (Project_findOne_id db pid) as [project|]; [|eauto].
    destruct (Hproj (p_uid project)) as [v Hv]. rewrite Hv.
    destruct (negb _); eauto. }
  destruct (t =? "note")%string; [|eauto].
  destruct (Note_findOne_uid db uid) as [x|]; [|eauto].
  destruct (i_user_id x =? u); [eauto|].
  destruct (if truthy (i_project_id x) then i_project_id x else None)
    as [pid|]; [|eauto].
  destruct (Project_findOne_id db pid) as [project|]; [|eauto].
  destruct (Hproj (p_uid project)) as [v Hv]. rewrite Hv.
  destruct (negb _); eauto.
Qed.

(** [getAccess] always returns a level. *)
Lemma getAccess_total (isAdmin : Z -> bool) (db : Store) (u : Z)
      (t uid : string) :
  exists v, getAccess isAdmin db u t uid = Some v.
Proof.
  unfold getAccess. apply getAccess_fuel_total_step.
  intros pu. apply getAccess_fuel_project_total.
Qed.

(** ** Administrators *)

(** C3 (admin supremacy): for an administrator, [getAccess] answers
    [ACCESS.ADMIN] for every resource type and every uid, whether or not a
    resource carries that uid, and [ownershipOrPermissionWhere] returns the
    empty where clause, which every row satisfies. *)
Theorem admin_supremacy (isAdmin : Z -> bool) (db : Store) (u : Z)
        (t uid : string) :
  isAdmin u = true ->
  getAccess isAdmin db u t uid = Some ACCESS.ADMIN /\
  ownershipOrPermissionWhere isAdmin db t u = NoRestriction /\
  forall r, evalWhere (ownershipOrPermissionWhere isAdmin db t u) r = true.
Proof.
  intros Hadmin. unfold getAccess, ownershipOrPermissionWhere.
  cbn [getAccess_fuel]. rewrite Hadmin. repeat split.
Qed.

Lemma admin_supremacy_witness :
  onlyAdmin 7 7 = true /\
  getAccess (onlyAdmin 7) scenario 7 "task" "no-such-uid" = Some ACCESS.ADMIN /\
  ownershipOrPermissionWhere (onlyAdmin 7) scenario "area" 7 = NoRestriction.
Proof.
  split; [reflexivity|].
  split.
  - apply (admin_supremacy (onlyAdmin 7) scenario 7 "task" "no-such-uid").
    reflexivity.
  - apply (admin_supremacy (onlyAdmin 7) scenario 7 "area" "no-such-uid").
    reflexivity.
Defined.

(** ** Termination *)

(** C8 (bounded recursion): [getAccess] returns on every input. A call on a
    project completes with no nested call (one level of fuel); any call
    completes within two levels, and more fuel never changes the answer;
    and a call that does not complete within one level, that is, one that
    makes the nested call, is on a task or a note. The nested call itself is
    always on type [project], as the body of [getAccess_fuel] shows. *)
Theorem getAccess_terminates (isAdmin : Z -> bool) (db : Store) (u : Z)
        (t uid : string) :
  (exists v, getAccess isAdmin db u t uid = Some v /\
             forall n, getAccess_fuel isAdmin db (S (S n)) u t uid = Some v) /\
  (forall pu n, exists v,
      getAccess_fuel isAdmin db (S n) u "project" pu = Some v /\
      getAccess_fuel isAdmin db 1 u "project" pu = Some v) /\
  ((t = "task" \/ t = "note") \/
   exists v, getAccess_fuel isAdmin db 1 u t uid = Some v).
Proof.
  assert (Hproj : forall pu, exists v,
             getAccess_fuel isAdmin db 1 u "project" pu = Some v)
    by (intros pu; apply getAccess_fuel_project_total).
  split; [|split].
  - assert (H2 : exists v, getAccess isAdmin db u t uid = Some v)
      by (apply getAccess_fuel_total_step; exact Hproj).
    destruct H2 as [v Hv]. exists v. split; [assumption|].
    intros n. rewrite getAccess_fuel_stable. exact Hv.
  - intros pu n. destruct (Hproj pu) as [v Hv]. exists v.
    rewrite getAccess_fuel_project. split; assumption.
  - cbn [getAccess_fuel].
    destruct (isAdmin u); [right; eauto|].
    destruct (t =? "project")%string eqn:Ep.
    { right. destruct (Project_findOne_uid db uid) as [proj|]; [|eauto].
      destruct (p_user_id proj =? u); eauto. }
    destruct (t =? "task")%string eqn:Et.
    { left. left. now apply String.eqb_eq. }
    destruct (t =? "note")%string eqn:En.
    { left. right. now apply String.eqb_eq. }
    right. eauto.
Qed.

(** ** [getAccess], branch by branch *)

Lemma getAccess_admin (isAdmin : Z -> bool) (db : Store) (u : Z)
      (t uid : string) :
  isAdmin u = true -> getAccess isAdmin db u t uid = Some ACCESS.ADMIN.
Proof. intros H. unfold getAccess. cbn [getAccess_fuel]. now rewrite H. Qed.

Lemma getAccess_project (isAdmin : Z -> bool) (db : Store) (u : Z)
      (uid : string) :
  isAdmin u = false ->
  getAccess isAdmin db u "project" uid
  = match Project_findOne_uid db uid with
    | None => Some ACCESS.NONE
    | Some proj =>
      if p_user_id proj =? u then Some ACCESS.RW
      else Some (sharedAccess db u "project" uid)
    end.
Proof. intros H. unfold getAccess. cbn. now rewrite H. Qed.

Lemma getAccess_task (isAdmin : Z -> bool) (db : Store) (u : Z)
      (uid : string) :
  isAdmin u = false ->
  getAccess isAdmin db u "task" uid
  = itemAccess isAdmin db u "task" uid (Task_findOne_uid db uid).
Proof.
  intros H. unfold itemAccess, getAccess.
  cbv beta iota delta [getAccess_fuel]; fold getAccess_fuel.
  rewrite !H. reflexivity.
Qed.

Lemma getAccess_note (isAdmin : Z -> bool) (db : Store) (u : Z)
      (uid : string) :
  isAdmin u = false ->
  getAccess isAdmin db u "note" uid
  = itemAccess isAdmin db u "note" uid (Note_findOne_uid db uid).
Proof.
  intros H. unfold itemAccess, getAccess.
  cbv beta iota delta [getAccess_fuel]; fold getAccess_fuel.
  rewrite !H. reflexivity.
Qed.

Lemma getAccess_other (isAdmin : Z -> bool) (db : Store) (u : Z)
      (t uid : string) :
  isAdmin u = false -> knownType t = false ->
  getAccess_fuel isAdmin db 1 u t uid = Some (sharedAccess db u t uid) /\
  getAccess isAdmin db u t uid = Some (sharedAccess db u t uid).
Proof.
  intros Hadmin Hk. unfold knownType in Hk.
  apply orb_false_iff in Hk. destruct Hk as [Hk Hn].
  apply orb_false_iff in Hk. destruct Hk as [Hp Ht].
  unfold getAccess. cbn [getAccess_fuel].
  now rewrite Hadmin, Hp, Ht, Hn.
Qed.

(** [sharedAccess] reads the [Permission] table only. *)
Lemma sharedAccess_ext (db db' : Store) (u : Z) (t uid : string) :
  Permissions db' = Permissions db ->
  sharedAccess db' u t uid = sharedAccess db u t uid.
Proof.
  intros H. unfold sharedAccess, Permission_findOne. now rewrite H.
Qed.

(** ** Unrecognised resource types *)

(** C6 (amended): for a user who is not an administrator and a resource type
    other than [project], [task] and [note], [getAccess] returns, without
    any nested call, exactly the outcome of the grant lookup: the stored
    level of the grant [Permission.findOne] finds for (user, type, uid), and
    [ACCESS.NONE] when it finds none. The answer depends on the
    [Permission] table alone, so no ownership or parent is consulted. *)
Theorem unknown_type_explicit_grant_only (isAdmin : Z -> bool) (db : Store)
        (u : Z) (t uid : string) :
  isAdmin u = false ->
  knownType t = false ->
  getAccess isAdmin db u t uid = Some (sharedAccess db u t uid) /\
  getAccess_fuel isAdmin db 1 u t uid = Some (sharedAccess db u t uid) /\
  (forall perm, Permission_findOne db u t uid = Some perm ->
                getAccess isAdmin db u t uid = Some (perm_access_level perm)) /\
  (Permission_findOne db u t uid = None ->
   getAccess isAdmin db u t uid = Some ACCESS.NONE) /\
  (forall db', Permissions db' = Permissions db ->
               getAccess isAdmin db' u t uid = getAccess isAdmin db u t uid).
Proof.
  intros Hadmin Hk.
  destruct (getAccess_other isAdmin db u t uid Hadmin Hk) as [H1 H2].
  repeat split; try assumption.
  - intros perm Hp. rewrite H2. unfold sharedAccess. now rewrite Hp.
  - intros Hp. rewrite H2. unfold sharedAccess. now rewrite Hp.
  - intros db' Hperm.
    destruct (getAccess_other isAdmin db' u t uid Hadmin Hk) as [_ H2'].
    rewrite H2, H2'. f_equal. now apply sharedAccess_ext.
Qed.

Lemma unknown_type_explicit_grant_only_witness :
  getAccess nobodyAdmin danglingGrants 5 "area" "a1" = Some ACCESS.RW /\
  getAccess nobodyAdmin danglingGrants 5 "area" "a2" = Some ACCESS.NONE.
Proof.
  pose proof (unknown_type_explicit_grant_only nobodyAdmin danglingGrants
                5 "area" "a1" eq_refl eq_refl) as [_ [_ [Hfound _]]].
  pose proof (unknown_type_explicit_grant_only nobodyAdmin danglingGrants
                5 "area" "a2" eq_refl eq_refl) as [_ [_ [_ [Hnone _]]]].
  split.
  - exact (Hfound (mkPermission 5 "area" "a1" "rw") eq_refl).
  - exact (Hnone eq_refl).
Defined.

(** C6 as stated fails for an administrator: on an unrecognised type the
    answer is [ACCESS.ADMIN], not the outcome of the grant lookup. *)
Lemma unknown_type_admin_counterexample :
  ~ (knownType "area" = false ->
     getAccess (onlyAdmin 7) scenario 7 "area" "a1"
     = Some (sharedAccess scenario 7 "area" "a1")).
Proof. intros H. specialize (H eq_refl). discriminate H. Qed.

(** ** Lookups in a store with unique uids *)

Lemma Project_findOne_uid_In (db : Store) (p : ProjectRow) :
  NoDup (map p_uid (Projects db)) -> In p (Projects db) ->
  Project_findOne_uid db (p_uid p) = Some p.
Proof. apply (find_key_unique p_uid String.eqb String.eqb_eq). Qed.

Lemma Project_findOne_id_In (db : Store) (p : ProjectRow) :
  NoDup (map p_id (Projects db)) -> In p (Projects db) ->
  Project_findOne_id db (p_id p) = Some p.
Proof. apply (find_key_unique p_id Z.eqb Z.eqb_eq). Qed.

Lemma Task_findOne_uid_In (db : Store) (x : ItemRow) :
  NoDup (map i_uid (Tasks db)) -> In x (Tasks db) ->
  Task_findOne_uid db (i_uid x) = Some x.
Proof. apply (find_key_unique i_uid String.eqb String.eqb_eq). Qed.

Lemma Note_findOne_uid_In (db : Store) (x : ItemRow) :
  NoDup (map i_uid (Notes db)) -> In x (Notes db) ->
  Note_findOne_uid db (i_uid x) = Some x.
Proof. apply (find_key_unique i_uid String.eqb String.eqb_eq). Qed.

Lemma scenario_uniqueUids : uniqueUids scenario.
Proof.
  unfold uniqueUids, scenario; simpl.
  repeat split; repeat constructor; simpl; tauto.
Qed.

Lemma scenario_StoreOK : StoreOK scenario.
Proof.
  split; [exact scenario_uniqueUids|].
  unfold validKeys, scenario; simpl.
  split; repeat constructor; simpl; try tauto; discriminate.
Qed.

(** ** Resources that do not exist *)

(** C2 (amended): for a user who is not an administrator, [getAccess] on a
    uid that no resource of the given type carries returns a value and
    raises nothing: [ACCESS.NONE] when the type is [project], [task] or
    [note], whatever grants name that uid, and the outcome of the grant
    lookup for any other type. *)
Theorem missing_resource_access (isAdmin : Z -> bool) (db : Store) (u : Z)
        (t uid : string) :
  isAdmin u = false ->
  resourceExists db t uid = false ->
  getAccess isAdmin db u t uid
  = Some (if knownType t then ACCESS.NONE else sharedAccess db u t uid).
Proof.
  intros Hadmin Hmiss. unfold resourceExists in Hmiss.
  destruct (knownType t) eqn:Hk.
  - unfold knownType in Hk.
    destruct (t =? "project")%string eqn:Ep.
    { apply String.eqb_eq in Ep. subst t.
      rewrite getAccess_project by assumption.
      apply (find_key_none p_uid String.eqb) in Hmiss.
      unfold Project_findOne_uid. now rewrite Hmiss. }
    destruct (t =? "task")%string eqn:Et.
    { apply String.eqb_eq in Et. subst t.
      rewrite getAccess_task by assumption.
      apply (find_key_none i_uid String.eqb) in Hmiss.
      unfold Task_findOne_uid. now rewrite Hmiss. }
    destruct (t =? "note")%string eqn:En; [|discriminate Hk].
    apply String.eqb_eq in En. subst t.
    rewrite getAccess_note by assumption.
    apply (find_key_none i_uid String.eqb) in Hmiss.
    unfold Note_findOne_uid. now rewrite Hmiss.
  - now apply getAccess_other.
Qed.

Lemma missing_resource_access_witness :
  getAccess nobodyAdmin danglingGrants 5 "project" "ghost" = Some ACCESS.NONE /\
  getAccess nobodyAdmin danglingGrants 5 "area" "a1" = Some ACCESS.RW.
Proof.
  split.
  - exact (missing_resource_access nobodyAdmin danglingGrants 5
             "project" "ghost" eq_refl eq_refl).
  - exact (missing_resource_access nobodyAdmin danglingGrants 5
             "area" "a1" eq_refl eq_refl).
Defined.

(** C2 as stated fails: user 5 holds a read-only grant on the project uid
    [ghost], no project carries that uid, and [getAccess] answers
    [ACCESS.NONE] instead of the granted level. *)
Lemma missing_resource_grant_counterexample :
  ~ (nobodyAdmin 5 = false ->
     resourceExists danglingGrants "project" "ghost" = false ->
     getAccess nobodyAdmin danglingGrants 5 "project" "ghost"
     = Some (sharedAccess danglingGrants 5 "project" "ghost")).
Proof. intros H. specialize (H eq_refl eq_refl). discriminate H. Qed.

(** ** Ownership *)

(** C4 (amended): in a store with unique uids, a user who is not an
    administrator and owns an existing project, task or note gets
    [ACCESS.RW] on it, whatever grants the [Permission] table holds and
    whatever the parent project would resolve to. *)
Theorem owner_gets_RW (isAdmin : Z -> bool) (db : Store) (u : Z) :
  isAdmin u = false ->
  uniqueUids db ->
  (forall p, In p (Projects db) -> p_user_id p = u ->
             getAccess isAdmin db u "project" (p_uid p) = Some ACCESS.RW) /\
  (forall x, In x (Tasks db) -> i_user_id x = u ->
             getAccess isAdmin db u "task" (i_uid x) = Some ACCESS.RW) /\
  (forall x, In x (Notes db) -> i_user_id x = u ->
             getAccess isAdmin db u "note" (i_uid x) = Some ACCESS.RW).
Proof.
  intros Hadmin [Hp [Ht Hn]]. repeat split.
  - intros p Hin Hown. rewrite getAccess_project by assumption.
    rewrite Project_findOne_uid_In by assumption.
    now rewrite Hown, Z.eqb_refl.
  - intros x Hin Hown. rewrite getAccess_task by assumption.
    rewrite Task_findOne_uid_In by assumption.
    unfold itemAccess. now rewrite Hown, Z.eqb_refl.
  - intros x Hin Hown. rewrite getAccess_note by assumption.
    rewrite Note_findOne_uid_In by assumption.
    unfold itemAccess. now rewrite Hown, Z.eqb_refl.
Qed.

Lemma owner_gets_RW_witness :
  getAccess nobodyAdmin scenario 1 "project" "p1" = Some ACCESS.RW /\
  getAccess nobodyAdmin scenario 2 "task" "t1" = Some ACCESS.RW.
Proof.
  split.
  - apply (proj1 (owner_gets_RW nobodyAdmin scenario 1 eq_refl
                    scenario_uniqueUids) (mkProject 10 "p1" 1)).
    + simpl; tauto.
    + reflexivity.
  - apply (proj1 (proj2 (owner_gets_RW nobodyAdmin scenario 2 eq_refl
                           scenario_uniqueUids)) (mkItem "t1" 2 (Some 10))).
    + simpl; tauto.
    + reflexivity.
Defined.

(** C4 as stated fails for an administrator who owns the resource: the
    answer is [ACCESS.ADMIN], not [ACCESS.RW]. *)
Lemma owner_admin_counterexample :
  ~ (uniqueUids scenario ->
     In (mkProject 10 "p1" 1) (Projects scenario) ->
     p_user_id (mkProject 10 "p1" 1) = 1 ->
     getAccess (onlyAdmin 1) scenario 1 "project" "p1" = Some ACCESS.RW).
Proof.
  intros H.
  assert (Hin : In (mkProject 10 "p1" 1) (Projects scenario))
    by (simpl; tauto).
  specialize (H scenario_uniqueUids Hin eq_refl). discriminate H.
Qed.

(** ** Inheritance from the parent project *)

Lemma itemAccess_inherits (isAdmin : Z -> bool) (db : Store) (u : Z)
      (t uid : string) (x : ItemRow) (proj : ProjectRow) :
  validKeys db ->
  In proj (Projects db) ->
  i_project_id x = Some (p_id proj) ->
  i_user_id x <> u ->
  exists projectAccess,
    getAccess isAdmin db u "project" (p_uid proj) = Some projectAccess /\
    (projectAccess <> ACCESS.NONE ->
     itemAccess isAdmin db u t uid (Some x) = Some projectAccess) /\
    (projectAccess = ACCESS.NONE ->
     itemAccess isAdmin db u t uid (Some x) = Some (sharedAccess db u t uid)).
Proof.
  intros [Hids Hnz] Hin Hparent Hown.
  destruct (getAccess_total isAdmin db u "project" (p_uid proj))
    as [pa Hpa].
  exists pa. split; [assumption|].
  assert (Hpid : p_id proj <> 0)
    by (rewrite Forall_forall in Hnz; now apply Hnz).
  assert (Hbody : itemAccess isAdmin db u t uid (Some x)
                  = if negb (pa =? ACCESS.NONE)%string then Some pa
                    else Some (sharedAccess db u t uid)).
  { unfold itemAccess.
    apply Z.eqb_neq in Hown. rewrite Hown.
    rewrite Hparent. unfold truthy.
    apply Z.eqb_neq in Hpid. rewrite Hpid. cbn [negb].
    rewrite Project_findOne_id_In by assumption.
    now rewrite Hpa. }
  rewrite Hbody. split.
  - intros Hne. apply String.eqb_neq in Hne. now rewrite Hne.
  - intros ->. now rewrite String.eqb_refl.
Qed.

(** C5 (one-level inheritance): in a store that meets the invariants of the
    data model, for a user who is not an administrator and a task or note
    [x] that the user does not own and whose [project_id] is the id of an
    existing project [proj]: [getAccess] on the project returns some level;
    when that level is not [ACCESS.NONE], [getAccess] on [x] returns the
    same level, and when it is [ACCESS.NONE], [getAccess] on [x] returns the
    outcome of the grant lookup for (user, type of [x], uid of [x]). *)
Theorem one_level_inheritance (isAdmin : Z -> bool) (db : Store) (u : Z)
        (x : ItemRow) (proj : ProjectRow) :
  isAdmin u = false ->
  StoreOK db ->
  In proj (Projects db) ->
  i_project_id x = Some (p_id proj) ->
  i_user_id x <> u ->
  exists projectAccess,
    getAccess isAdmin db u "project" (p_uid proj) = Some projectAccess /\
    (In x (Tasks db) ->
     (projectAccess <> ACCESS.NONE ->
      getAccess isAdmin db u "task" (i_uid x) = Some projectAccess) /\
     (projectAccess = ACCESS.NONE ->
      getAccess isAdmin db u "task" (i_uid x)
      = Some (sharedAccess db u "task" (i_uid x)))) /\
    (In x (Notes db) ->
     (projectAccess <> ACCESS.NONE ->
      getAccess isAdmin db u "note" (i_uid x) = Some projectAccess) /\
     (projectAccess = ACCESS.NONE ->
      getAccess isAdmin db u "note" (i_uid x)
      = Some (sharedAccess db u "note" (i_uid x)))).
Proof.
  intros Hadmin [[_ [Htasks Hnotes]] Hkeys] Hin Hparent Hown.
  destruct (itemAccess_inherits isAdmin db u "task" (i_uid x) x proj
              Hkeys Hin Hparent Hown) as [pa [Hpa [Ht1 Ht2]]].
  destruct (itemAccess_inherits isAdmin db u "note" (i_uid x) x proj
              Hkeys Hin Hparent Hown) as [pa' [Hpa' [Hn1 Hn2]]].
  assert (pa' = pa) by congruence. subst pa'.
  exists pa. split; [assumption|]. split.
  - intros Hx. rewrite getAccess_task by assumption.
    rewrite Task_findOne_uid_In by assumption. split; assumption.
  - intros Hx. rewrite getAccess_note by assumption.
    rewrite Note_findOne_uid_In by assumption. split; assumption.
Qed.

Lemma one_level_inheritance_witness :
  getAccess nobodyAdmin scenario 3 "project" "p1" = Some ACCESS.RO /\
  getAccess nobodyAdmin scenario 3 "task" "t1" = Some ACCESS.RO.
Proof.
  split; [reflexivity|].
  destruct (one_level_inheritance nobodyAdmin scenario 3
              (mkItem "t1" 2 (Some 10)) (mkProject 10 "p1" 1))
    as [pa [Hpa [Htask _]]].
  - reflexivity.
  - exact scenario_StoreOK.
  - simpl; tauto.
  - reflexivity.
  - simpl; lia.
  - assert (Hro : pa = ACCESS.RO)
      by (vm_compute in Hpa; now injection Hpa).
    subst pa. apply Htask.
    + simpl; tauto.
    + discriminate.
Defined.

(** ** The explicit-grant lookup *)

Lemma itemAccess_reachesShared (isAdmin : Z -> bool) (db : Store) (u : Z)
      (t uid : string) (row : option ItemRow) :
  itemReachesShared isAdmin db u row = true ->
  itemAccess isAdmin db u t uid row = Some (sharedAccess db u t uid).
Proof.
  unfold itemReachesShared, itemAccess.
  destruct row as [x|]; [|discriminate].
  destruct (i_user_id x =? u); [discriminate|].
  destruct (if truthy (i_project_id x) then i_project_id x else None)
    as [pid|]; [|reflexivity].
  destruct (Project_findOne_id db pid) as [project|]; [|reflexivity].
  destruct (getAccess isAdmin db u "project" (p_uid project)) as [pa|];
    [|discriminate].
  intros H. now rewrite H.
Qed.

Lemma getAccess_reachesShared (isAdmin : Z -> bool) (db : Store) (u : Z)
      (t uid : string) :
  reachesShared isAdmin db u t uid = true ->
  getAccess isAdmin db u t uid = Some (sharedAccess db u t uid).
Proof.
  unfold reachesShared.
  destruct (isAdmin u) eqn:Hadmin; [discriminate|].
  destruct (t =? "project")%string eqn:Ep.
  { apply String.eqb_eq in Ep. subst t.
    rewrite getAccess_project by assumption.
    destruct (Project_findOne_uid db uid) as [proj|]; [|discriminate].
    destruct (p_user_id proj =? u); [discriminate | reflexivity]. }
  destruct (t =? "task")%string eqn:Et.
  { apply String.eqb_eq in Et. subst t.
    rewrite getAccess_task by assumption.
    apply itemAccess_reachesShared. }
  destruct (t =? "note")%string eqn:En.
  { apply String.eqb_eq in En. subst t.
    rewrite getAccess_note by assumption.
    apply itemAccess_reachesShared. }
  intros _. apply getAccess_other; [assumption|].
  unfold knownType. now rewrite Ep, Et, En.
Qed.

(** C9 (stored level returned verbatim): when a call of [getAccess] arrives
    at the grant lookup and [Permission.findOne] finds a grant, the answer
    is that grant's [access_level] as stored, whatever string it is; the
    levels [none] and [admin] and strings outside [ACCESS] come back
    unchanged. *)
Theorem shared_level_verbatim (isAdmin : Z -> bool) (db : Store) (u : Z)
        (t uid : string) (perm : PermissionRow) (v : string) :
  reachesShared isAdmin db u t uid = true ->
  Permission_findOne db u t uid = Some perm ->
  perm_access_level perm = v ->
  getAccess isAdmin db u t uid = Some v.
Proof.
  intros Hreach Hperm Hv.
  rewrite (getAccess_reachesShared _ _ _ _ _ Hreach).
  unfold sharedAccess. now rewrite Hperm, Hv.
Qed.

Lemma shared_level_verbatim_witness :
  getAccess nobodyAdmin oddGrant 3 "task" "t1" = Some "banana".
Proof.
  apply (shared_level_verbatim nobodyAdmin oddGrant 3 "task" "t1"
           (mkPermission 3 "task" "t1" "banana") "banana");
    reflexivity.
Defined.

(** The same holds of the levels [none] and [admin] when stored. *)
Lemma shared_level_admin_stored :
  getAccess nobodyAdmin
            (mkStore [] [] [] [mkPermission 3 "area" "a1" "admin";
                               mkPermission 3 "area" "a2" "none"])
            3 "area" "a1" = Some ACCESS.ADMIN.
Proof. reflexivity. Qed.

(** ** The where clause of [ownershipOrPermissionWhere] *)

Lemma filter_none {A : Type} (f : A -> bool) (l : list A) :
  (forall a, In a l -> f a = false) -> filter f l = [].
Proof.
  induction l as [|a l IH]; simpl; intros H; [reflexivity|].
  rewrite (H a) by tauto. apply IH. intros b Hb. apply H. tauto.
Qed.

(** For a task or a note the disjunction is the one the specification
    describes. *)
Lemma where_item (isAdmin : Z -> bool) (db : Store) (u : Z) (t : string) :
  isAdmin u = false ->
  t = "task" \/ t = "note" ->
  ownershipOrPermissionWhere isAdmin db t u = OpOr (specConditions db t u).
Proof.
  intros Hadmin Ht. unfold ownershipOrPermissionWhere, specConditions.
  rewrite Hadmin.
  assert (Hb : ((t =? "task") || (t =? "note"))%string = true)
    by (destruct Ht; subst t; reflexivity).
  rewrite Hb. cbn [andb].
  destruct (0 <? List.length (getSharedUidsForUser db t u))%nat;
    destruct (0 <? List.length (sharedProjectIds db u))%nat; reflexivity.
Qed.

(** For every other type the disjunction has two conditions, the second
    being [{ uid: null }] when nothing is shared. *)
Lemma where_other (isAdmin : Z -> bool) (db : Store) (u : Z) (t : string) :
  isAdmin u = false ->
  t <> "task" -> t <> "note" ->
  ownershipOrPermissionWhere isAdmin db t u
  = OpOr [ user_id_eq u;
           if (0 <? List.length (getSharedUidsForUser db t u))%nat
           then uid_in (getSharedUidsForUser db t u) else uid_null ].
Proof.
  intros Hadmin Ht Hn. unfold ownershipOrPermissionWhere. rewrite Hadmin.
  apply String.eqb_neq in Ht. apply String.eqb_neq in Hn.
  now rewrite Ht, Hn.
Qed.

Lemma specConditions_no_empty_set (db : Store) (t : string) (u : Z) :
  forallb (fun c => negb (emptySetClause c || substituteClause c))
          (specConditions db t u) = true.
Proof.
  unfold specConditions.
  destruct (getSharedUidsForUser db t u) as [|s l];
    destruct (sharedProjectIds db u) as [|z l'];
    destruct ((t =? "task") || (t =? "note"))%string; reflexivity.
Qed.

(** C10 (grants on deleted projects): for a user who is not an administrator
    and the type [task] or [note], if no project grant of the user names the
    uid of an existing project, then [sharedProjectIds] is empty and the
    disjunction holds the owner condition and, when the user has direct
    grants of that type, the [uid] condition, and nothing else: no condition
    on [project_id] occurs in it, with an empty list or otherwise. *)
Theorem deleted_project_grant_omitted (isAdmin : Z -> bool) (db : Store)
        (u : Z) (t : string) :
  isAdmin u = false ->
  t = "task" \/ t = "note" ->
  (forall g, In g (Permissions db) ->
             perm_user_id g = u -> perm_resource_type g = "project" ->
             Project_findOne_uid db (perm_resource_uid g) = None) ->
  sharedProjectIds db u = [] /\
  ownershipOrPermissionWhere isAdmin db t u
  = OpOr (user_id_eq u ::
          if (0 <? List.length (getSharedUidsForUser db t u))%nat
          then [uid_in (getSharedUidsForUser db t u)] else []) /\
  forall conditions,
    ownershipOrPermissionWhere isAdmin db t u = OpOr conditions ->
    existsb isProjectIdClause conditions = false.
Proof.
  intros Hadmin Ht Hgone.
  assert (Hids : sharedProjectIds db u = []).
  { unfold sharedProjectIds.
    destruct (0 <? List.length (getSharedUidsForUser db "project" u))%nat;
      [|reflexivity].
    unfold Project_findAll_uid_in. rewrite filter_none; [reflexivity|].
    intros p Hp.
    destruct (mem_string (p_uid p) (getSharedUidsForUser db "project" u))
      eqn:E; [|reflexivity].
    apply mem_string_In, getSharedUidsForUser_In in E.
    destruct E as [g [Hg [Hu [Hty Huid]]]].
    specialize (Hgone g Hg Hu Hty). rewrite Huid in Hgone.
    apply (find_key_none p_uid String.eqb) in Hgone.
    assert (Hex : existsb (fun q => (p_uid q =? p_uid p)%string)
                          (Projects db) = true).
    { apply existsb_exists. exists p. split; [assumption|].
      apply String.eqb_refl. }
    congruence. }
  assert (Hwhere : ownershipOrPermissionWhere isAdmin db t u
                   = OpOr (user_id_eq u ::
                           if (0 <? List.length
                                      (getSharedUidsForUser db t u))%nat
                           then [uid_in (getSharedUidsForUser db t u)]
                           else [])).
  { rewrite where_item by assumption. unfold specConditions.
    rewrite Hids. cbn [List.length Nat.ltb Nat.leb andb].
    rewrite andb_false_r. cbn [app].
    now rewrite app_nil_r. }
  repeat split; try assumption.
  intros conditions Hc. rewrite Hwhere in Hc. injection Hc as <-.
  destruct (0 <? List.length (getSharedUidsForUser db t u))%nat; reflexivity.
Qed.

Lemma deleted_project_grant_omitted_witness :
  getSharedUidsForUser danglingGrants "project" 5 = ["ghost"] /\
  sharedProjectIds danglingGrants 5 = [] /\
  ownershipOrPermissionWhere nobodyAdmin danglingGrants "task" 5
  = OpOr [user_id_eq 5].
Proof.
  split; [reflexivity|].
  assert (Hgone : forall g, In g (Permissions danglingGrants) ->
                    perm_user_id g = 5 -> perm_resource_type g = "project" ->
                    Project_findOne_uid danglingGrants (perm_resource_uid g)
                    = None)
    by (intros g _ _ _; reflexivity).
  destruct (deleted_project_grant_omitted nobodyAdmin danglingGrants 5 "task"
              eq_refl (or_introl eq_refl) Hgone) as [Hids [Hwhere _]].
  split; [exact Hids | exact Hwhere].
Defined.

(** C7 (amended): for a user who is not an administrator the where clause is
    a disjunction in which no [Op.in] ranges over an empty list, for every
    resource type. For [task] and [note] it is the disjunction of the
    specification: a condition whose backing set is empty is absent and
    nothing stands in its place. For every other type, [project] included,
    it has exactly two conditions, and when [sharedUids] is empty the second
    is the clause [{ uid: null }] in place of [uid IN sharedUids]. *)
Theorem empty_set_conditions (isAdmin : Z -> bool) (db : Store) (u : Z)
        (t : string) :
  isAdmin u = false ->
  exists conditions,
    ownershipOrPermissionWhere isAdmin db t u = OpOr conditions /\
    forallb (fun c => negb (emptySetClause c)) conditions = true /\
    (t = "task" \/ t = "note" ->
     conditions = specConditions db t u /\
     forallb (fun c => negb (substituteClause c)) conditions = true) /\
    (t <> "task" -> t <> "note" ->
     conditions
     = [ user_id_eq u;
         if (0 <? List.length (getSharedUidsForUser db t u))%nat
         then uid_in (getSharedUidsForUser db t u) else uid_null ]).
Proof.
  intros Hadmin.
  assert (Hitem : t = "task" \/ t = "note" ->
                  exists conditions,
                    ownershipOrPermissionWhere isAdmin db t u
                    = OpOr conditions /\
                    forallb (fun c => negb (emptySetClause c)) conditions
                    = true /\
                    conditions = specConditions db t u /\
                    forallb (fun c => negb (substituteClause c)) conditions
                    = true).
  { intros Ht. exists (specConditions db t u).
    pose proof (specConditions_no_empty_set db t u) as Hspec.
    rewrite forallb_forall in Hspec.
    rewrite where_item by assumption. repeat split.
    - apply forallb_forall. intros c Hc. specialize (Hspec c Hc).
      now destruct (emptySetClause c).
    - apply forallb_forall. intros c Hc. specialize (Hspec c Hc).
      destruct (substituteClause c); [|reflexivity].
      now rewrite orb_true_r in Hspec. }
  destruct (String.eqb_spec t "task") as [Et|Et].
  { destruct Hitem as [conditions [Hw [He [Hs Hn]]]]; [tauto|].
    exists conditions. repeat split; tauto. }
  destruct (String.eqb_spec t "note") as [En|En].
  { destruct Hitem as [conditions [Hw [He [Hs Hn]]]]; [tauto|].
    exists conditions. repeat split; tauto. }
  clear Hitem.
  rewrite where_other by assumption.
  eexists. split; [reflexivity|]. split; [|split].
  - destruct (getSharedUidsForUser db t u); reflexivity.
  - intros [H|H]; contradiction.
  - reflexivity.
Qed.

Lemma empty_set_conditions_witness :
  ownershipOrPermissionWhere nobodyAdmin scenario "task" 4
  = OpOr [user_id_eq 4] /\
  ownershipOrPermissionWhere nobodyAdmin scenario "project" 4
  = OpOr [user_id_eq 4; uid_null].
Proof.
  destruct (empty_set_conditions nobodyAdmin scenario 4 "task" eq_refl)
    as [ctask [Htask [_ [Hspec _]]]].
  destruct (empty_set_conditions nobodyAdmin scenario 4 "project" eq_refl)
    as [cproj [Hproj [_ [_ Hshape]]]].
  split.
  - rewrite Htask. f_equal.
    exact (proj1 (Hspec (or_introl eq_refl))).
  - rewrite Hproj. f_equal. apply Hshape; discriminate.
Defined.

(** C7 as stated fails on the type [project]: user 4 has no grant, so
    [sharedUids] is empty, and the disjunction still carries a second
    clause, [{ uid: null }], where the condition on [uid] would stand. *)
Lemma empty_set_substitute_counterexample :
  ~ (nobodyAdmin 4 = false ->
     forall conditions,
       ownershipOrPermissionWhere nobodyAdmin scenario "project" 4
       = OpOr conditions ->
       forallb (fun c => negb (emptySetClause c || substituteClause c))
               conditions = true).
Proof.
  intros H.
  specialize (H eq_refl [user_id_eq 4; uid_null] eq_refl).
  discriminate H.
Qed.

(** ** The where clause against [getAccess] *)

(** A row that fails the where clause of a non-administrator is not owned
    by the user and no grant of that type names its uid. *)
Lemma evalWhere_false_direct (isAdmin : Z -> bool) (db : Store) (u : Z)
      (t : string) (r : RowView) :
  isAdmin u = false ->
  evalWhere (ownershipOrPermissionWhere isAdmin db t u) r = false ->
  v_user_id r <> u /\ sharedAccess db u t (v_uid r) = ACCESS.NONE.
Proof.
  intros Hadmin Hw.
  assert (Hcore : (v_user_id r =? u) = false /\
                  ~ In (v_uid r) (getSharedUidsForUser db t u)).
  { assert (Huid : forall rest,
               existsb (fun c => evalCondition c r)
                 ((if (0 <? List.length (getSharedUidsForUser db t u))%nat
                   then [uid_in (getSharedUidsForUser db t u)] else [])
                  ++ rest) = false ->
               ~ In (v_uid r) (getSharedUidsForUser db t u)).
    { intros rest H Hin.
      destruct (getSharedUidsForUser db t u) as [|s l] eqn:Es; [exact Hin|].
      cbn [List.length Nat.ltb Nat.leb app existsb evalCondition] in H.
      apply orb_false_iff in H. destruct H as [H _].
      apply mem_string_In in Hin. congruence. }
    destruct (String.eqb_spec t "task") as [Et|Et];
      [|destruct (String.eqb_spec t "note") as [En|En]].
    - rewrite where_item in Hw by tauto.
      unfold specConditions in Hw. cbn [evalWhere app existsb] in Hw.
      apply orb_false_iff in Hw. destruct Hw as [Ho Hw].
      split; [exact Ho | exact (Huid _ Hw)].
    - rewrite where_item in Hw by tauto.
      unfold specConditions in Hw. cbn [evalWhere app existsb] in Hw.
      apply orb_false_iff in Hw. destruct Hw as [Ho Hw].
      split; [exact Ho | exact (Huid _ Hw)].
    - rewrite where_other in Hw by assumption.
      cbn [evalWhere existsb] in Hw.
      apply orb_false_iff in Hw. destruct Hw as [Ho Hw].
      split; [exact Ho|]. apply (Huid []).
      destruct (0 <? List.length (getSharedUidsForUser db t u))%nat;
        exact Hw. }
  destruct Hcore as [Ho Hs]. split; [now apply Z.eqb_neq|].
  unfold sharedAccess.
  destruct (Permission_findOne db u t (v_uid r)) as [perm|] eqn:Ep;
    [|reflexivity].
  exfalso. apply Hs. now apply Permission_findOne_shared with perm.
Qed.

(** On projects the where clause and [getAccess] agree: an existing project
    that fails the where clause resolves to [ACCESS.NONE]. *)
Lemma project_filter_consistent (isAdmin : Z -> bool) (db : Store) (u : Z)
      (p : ProjectRow) :
  uniqueUids db ->
  In p (Projects db) ->
  evalWhere (ownershipOrPermissionWhere isAdmin db "project" u)
            (viewOfProject p) = false ->
  getAccess isAdmin db u "project" (p_uid p) = Some ACCESS.NONE.
Proof.
  intros [Hp _] Hin Hw.
  destruct (isAdmin u) eqn:Hadmin.
  { unfold ownershipOrPermissionWhere in Hw. rewrite Hadmin in Hw.
    discriminate Hw. }
  destruct (evalWhere_false_direct _ _ _ _ _ Hadmin Hw) as [Ho Hs].
  cbn [viewOfProject v_user_id v_uid] in Ho, Hs.
  rewrite getAccess_project by assumption.
  rewrite Project_findOne_uid_In by assumption.
  apply Z.eqb_neq in Ho. now rewrite Ho, Hs.
Qed.

Lemma sharedProjectIds_In (db : Store) (u : Z) (proj : ProjectRow) :
  In proj (Projects db) ->
  In (p_uid proj) (getSharedUidsForUser db "project" u) ->
  In (p_id proj) (sharedProjectIds db u).
Proof.
  intros Hin Hshared. unfold sharedProjectIds.
  destruct (getSharedUidsForUser db "project" u) as [|s l] eqn:Es;
    [contradiction|].
  cbn [List.length Nat.ltb Nat.leb]. apply in_map.
  unfold Project_findAll_uid_in. apply filter_In. split; [assumption|].
  now apply mem_string_In.
Qed.

(** A task or note that fails the where clause does not lie in a project
    whose id is among [sharedProjectIds]. *)
Lemma evalWhere_false_parent (isAdmin : Z -> bool) (db : Store) (u : Z)
      (t : string) (x : ItemRow) (pid : Z) :
  isAdmin u = false ->
  t = "task" \/ t = "note" ->
  evalWhere (ownershipOrPermissionWhere isAdmin db t u) (viewOfItem x)
  = false ->
  i_project_id x = Some pid ->
  ~ In pid (sharedProjectIds db u).
Proof.
  intros Hadmin Ht Hw Hparent Hin.
  rewrite where_item in Hw by assumption.
  unfold specConditions in Hw. cbn [evalWhere] in Hw.
  rewrite !existsb_app in Hw.
  apply orb_false_iff in Hw. destruct Hw as [_ Hw].
  apply orb_false_iff in Hw. destruct Hw as [_ Hw].
  assert (Hb : ((t =? "task") || (t =? "note"))%string = true)
    by (destruct Ht; subst t; reflexivity).
  rewrite Hb in Hw. cbn [andb] in Hw.
  destruct (sharedProjectIds db u) as [|z l] eqn:Es; [contradiction|].
  cbn [List.length Nat.ltb Nat.leb existsb evalCondition viewOfItem
       v_project_id] in Hw.
  rewrite Hparent in Hw. apply orb_false_iff in Hw. destruct Hw as [Hw _].
  apply mem_Z_In in Hin. congruence.
Qed.

Lemma itemAccess_filter_consistent (isAdmin : Z -> bool) (db : Store)
      (u : Z) (t : string) (x : ItemRow) :
  isAdmin u = false ->
  NoDup (map p_uid (Projects db)) ->
  t = "task" \/ t = "note" ->
  evalWhere (ownershipOrPermissionWhere isAdmin db t u) (viewOfItem x)
  = false ->
  (forall proj, In proj (Projects db) ->
                i_project_id x = Some (p_id proj) -> p_user_id proj <> u) ->
  itemAccess isAdmin db u t (i_uid x) (Some x) = Some ACCESS.NONE.
Proof.
  intros Hadmin Hp Ht Hw Hparent.
  destruct (evalWhere_false_direct _ _ _ _ _ Hadmin Hw) as [Ho Hs].
  cbn [viewOfItem v_user_id v_uid] in Ho, Hs.
  unfold itemAccess. apply Z.eqb_neq in Ho. rewrite Ho, Hs.
  destruct (i_project_id x) as [pid|] eqn:Epid;
    [|reflexivity].
  destruct (truthy (Some pid)); [|reflexivity].
  destruct (Project_findOne_id db pid) as [project|] eqn:Eproj;
    [|reflexivity].
  apply (find_key_sound p_id Z.eqb Z.eqb_eq) in Eproj.
  destruct Eproj as [Hin Hid]. subst pid.
  rewrite getAccess_project by assumption.
  rewrite Project_findOne_uid_In by assumption.
  specialize (Hparent project Hin eq_refl).
  apply Z.eqb_neq in Hparent. rewrite Hparent.
  unfold sharedAccess.
  destruct (Permission_findOne db u "project" (p_uid project))
    as [perm|] eqn:Eperm; [|reflexivity].
  exfalso.
  apply (evalWhere_false_parent isAdmin db u t x (p_id project));
    try assumption.
  apply sharedProjectIds_In; [assumption|].
  now apply Permission_findOne_shared with perm.
Qed.

(** When the user does not own the parent project, the where clause and
    [getAccess] agree on tasks and notes: an existing task or note that
    fails the where clause, and whose parent project, if any, belongs to
    somebody else, resolves to [ACCESS.NONE]. *)
Lemma item_filter_consistent (isAdmin : Z -> bool) (db : Store) (u : Z)
      (x : ItemRow) :
  uniqueUids db ->
  (forall proj, In proj (Projects db) ->
                i_project_id x = Some (p_id proj) -> p_user_id proj <> u) ->
  (In x (Tasks db) ->
   evalWhere (ownershipOrPermissionWhere isAdmin db "task" u) (viewOfItem x)
   = false ->
   getAccess isAdmin db u "task" (i_uid x) = Some ACCESS.NONE) /\
  (In x (Notes db) ->
   evalWhere (ownershipOrPermissionWhere isAdmin db "note" u) (viewOfItem x)
   = false ->
   getAccess isAdmin db u "note" (i_uid x) = Some ACCESS.NONE).
Proof.
  intros [Hp [Ht Hn]] Hparent.
  destruct (isAdmin u) eqn:Hadmin.
  { unfold ownershipOrPermissionWhere. rewrite Hadmin.
    split; intros _ Hw; discriminate Hw. }
  split; intros Hin Hw.
  - rewrite getAccess_task by assumption.
    rewrite Task_findOne_uid_In by assumption.
    apply itemAccess_filter_consistent; auto.
  - rewrite getAccess_note by assumption.
    rewrite Note_findOne_uid_In by assumption.
    apply itemAccess_filter_consistent; auto.
Qed.

(** C1 (predicate and resolver disagree): in the scenario of the
    specification user 1 owns project [p1] and task [t1] of user 2 lies in
    it. The where clause built for user 1 on tasks is the owner condition
    alone and [t1] fails it, while [getAccess] resolves user 1 on [t1] to
    [ACCESS.RW], inherited from the project. *)
Theorem filter_misses_task_of_owned_project :
  In (mkItem "t1" 2 (Some 10)) (Tasks scenario) /\
  ownershipOrPermissionWhere nobodyAdmin scenario "task" 1
  = OpOr [user_id_eq 1] /\
  evalWhere (ownershipOrPermissionWhere nobodyAdmin scenario "task" 1)
            (viewOfItem (mkItem "t1" 2 (Some 10))) = false /\
  getAccess nobodyAdmin scenario 1 "task" "t1" = Some ACCESS.RW.
Proof. repeat split. simpl; tauto. Qed.

Lemma project_filter_consistent_witness :
  getAccess nobodyAdmin scenario 4 "project" "p1" = Some ACCESS.NONE.
Proof.
  apply (project_filter_consistent nobodyAdmin scenario 4
           (mkProject 10 "p1" 1) scenario_uniqueUids).
  - simpl; tauto.
  - reflexivity.
Defined.

Lemma item_filter_consistent_witness :
  getAccess nobodyAdmin scenario 4 "task" "t1" = Some ACCESS.NONE.
Proof.
  apply (proj1 (item_filter_consistent nobodyAdmin scenario 4
                  (mkItem "t1" 2 (Some 10)) scenario_uniqueUids
                  ltac:(intros proj [<-|[]] _; simpl; lia))).
  - simpl; tauto.
  - reflexivity.
Defined.

(** ** Remarks on the embedding *)

(** [reachesShared] holds of every call of a non-administrator on an
    unrecognised type, and of no call of an administrator. *)
Lemma reachesShared_other (isAdmin : Z -> bool) (db : Store) (u : Z)
      (t uid : string) :
  knownType t = false ->
  reachesShared isAdmin db u t uid = negb (isAdmin u).
Proof.
  unfold knownType, reachesShared. intros Hk.
  apply orb_false_iff in Hk. destruct Hk as [Hk Hn].
  apply orb_false_iff in Hk. destruct Hk as [Hp Ht].
  rewrite Hp, Ht, Hn. now destruct (isAdmin u).
Qed.

(** The test [if (t.project_id)] is a truthiness test: a [project_id] of 0
    is skipped like a null one, which is why [validKeys] asks for non-zero
    project ids. *)
Example project_id_zero_is_not_followed :
  getAccess nobodyAdmin
            (mkStore [mkProject 0 "p0" 1] [mkItem "t0" 2 (Some 0)] [] [])
            1 "task" "t0" = Some ACCESS.NONE.
Proof. reflexivity. Qed.

(** * Further properties of the service *)

(** ** [getSharedUidsForUser] *)

Lemma arrayFromSet_acc_NoDup (xs seen : list string) :
  NoDup seen ->
  NoDup (fold_left
           (fun seen x =>
              if mem_string x seen then seen else (seen ++ [x])%list)
           xs seen).
Proof.
  revert seen. induction xs as [|a xs IH]; simpl; intros seen Hnd;
    [assumption|].
  apply IH. destruct (mem_string a seen) eqn:E; [assumption|].
  apply NoDup_app; [assumption | repeat constructor; intros [] |].
  intros x Hx [Ha|[]]. subst x.
  apply mem_string_In in Hx. congruence.
Qed.

(** The uids returned by [getSharedUidsForUser] are pairwise distinct, and a
    uid is returned exactly when a grant of that type to that user names
    it: grants of other users and of other types never show. *)
Theorem getSharedUidsForUser_spec (db : Store) (t : string) (u : Z) :
  NoDup (getSharedUidsForUser db t u) /\
  forall x, In x (getSharedUidsForUser db t u) <-> granted db u t x.
Proof.
  split.
  - unfold getSharedUidsForUser, arrayFromSet.
    apply arrayFromSet_acc_NoDup. constructor.
  - intros x. apply getSharedUidsForUser_In.
Qed.

(** ** What the where clause matches *)

Lemma sharedProjectIds_iff (db : Store) (u : Z) (pid : Z) :
  In pid (sharedProjectIds db u) <->
  exists proj, In proj (Projects db) /\ p_id proj = pid /\
               granted db u "project" (p_uid proj).
Proof.
  split.
  - unfold sharedProjectIds.
    destruct (0 <? List.length (getSharedUidsForUser db "project" u))%nat;
      [|intros []].
    intros Hin. apply in_map_iff in Hin. destruct Hin as [proj [Hid Hin]].
    unfold Project_findAll_uid_in in Hin. apply filter_In in Hin.
    destruct Hin as [Hin Hmem]. exists proj. repeat split; try assumption.
    now apply getSharedUidsForUser_In, mem_string_In.
  - intros [proj [Hin [Hid Hg]]]. subst pid.
    apply sharedProjectIds_In; [assumption|].
    now apply getSharedUidsForUser_In.
Qed.

Lemma uid_condition_iff (db : Store) (t : string) (u : Z) (r : RowView) :
  existsb (fun c => evalCondition c r)
          (if (0 <? List.length (getSharedUidsForUser db t u))%nat
           then [uid_in (getSharedUidsForUser db t u)] else []) = true
  <-> granted db u t (v_uid r).
Proof.
  rewrite <- (getSharedUidsForUser_In db t u (v_uid r)).
  destruct (getSharedUidsForUser db t u) as [|s l] eqn:Es.
  - cbn. split; [discriminate | intros []].
  - cbn [List.length Nat.ltb Nat.leb existsb evalCondition].
    rewrite orb_false_r. apply mem_string_In.
Qed.

Lemma project_id_condition_iff (db : Store) (u : Z) (r : RowView) :
  existsb (fun c => evalCondition c r)
          (if (0 <? List.length (sharedProjectIds db u))%nat
           then [project_id_in (sharedProjectIds db u)] else []) = true
  <-> exists pid, v_project_id r = Some pid /\ In pid (sharedProjectIds db u).
Proof.
  destruct (sharedProjectIds db u) as [|z l] eqn:Es.
  - cbn. split; [discriminate | intros [pid [_ []]]].
  - cbn [List.length Nat.ltb Nat.leb existsb evalCondition].
    rewrite orb_false_r. destruct (v_project_id r) as [pid|].
    + rewrite mem_Z_In. split.
      * intros H. now exists pid.
      * intros [pid' [Heq H]]. now injection Heq as ->.
    + split; [discriminate | intros [pid [Heq _]]; discriminate].
Qed.

(** A row the user owns satisfies the where clause built for that user,
    for every resource type and whatever the grants are. *)
Theorem own_rows_always_match (isAdmin : Z -> bool) (db : Store) (u : Z)
        (t : string) (r : RowView) :
  v_user_id r = u ->
  evalWhere (ownershipOrPermissionWhere isAdmin db t u) r = true.
Proof.
  intros Hown. apply Z.eqb_eq in Hown.
  unfold ownershipOrPermissionWhere.
  destruct (isAdmin u); [reflexivity|].
  destruct ((t =? "task") || (t =? "note"))%string.
  - destruct (0 <? List.length (getSharedUidsForUser db t u))%nat;
      destruct (0 <? List.length (sharedProjectIds db u))%nat;
      cbn; now rewrite Hown.
  - cbn. now rewrite Hown.
Qed.

Lemma own_rows_always_match_witness :
  evalWhere (ownershipOrPermissionWhere nobodyAdmin scenario "task" 2)
            (viewOfItem (mkItem "t1" 2 (Some 10))) = true.
Proof.
  apply (own_rows_always_match nobodyAdmin scenario 2 "task"
           (viewOfItem (mkItem "t1" 2 (Some 10)))).
  reflexivity.
Defined.

(** For a user who is not an administrator and a type other than [task] and
    [note], a row satisfies the where clause exactly when the user owns it
    or a grant of that type to the user names its uid; the clause
    [{ uid: null }] adds no row. *)
Theorem where_other_matches (isAdmin : Z -> bool) (db : Store) (u : Z)
        (t : string) (r : RowView) :
  isAdmin u = false ->
  t <> "task" -> t <> "note" ->
  (evalWhere (ownershipOrPermissionWhere isAdmin db t u) r = true
   <-> v_user_id r = u \/ granted db u t (v_uid r)).
Proof.
  intros Hadmin Ht Hn. rewrite where_other by assumption.
  rewrite <- (uid_condition_iff db t u r).
  destruct (0 <? List.length (getSharedUidsForUser db t u))%nat;
    cbn [evalWhere existsb evalCondition];
    rewrite !orb_true_iff, Z.eqb_eq; tauto.
Qed.

Lemma where_other_matches_witness :
  evalWhere (ownershipOrPermissionWhere nobodyAdmin scenario "project" 3)
            (viewOfProject (mkProject 10 "p1" 1)) = true.
Proof.
  apply (where_other_matches nobodyAdmin scenario 3 "project"
           (viewOfProject (mkProject 10 "p1" 1)) eq_refl);
    [discriminate | discriminate |].
  right. exists (mkPermission 3 "project" "p1" "ro").
  simpl. tauto.
Defined.

(** For a user who is not an administrator and the type [task] or [note],
    a row satisfies the where clause exactly when the user owns it, or a
    grant of that type to the user names its uid, or its [project_id] is
    the id of an existing project whose uid a project grant to the user
    names. *)
Theorem where_item_matches (isAdmin : Z -> bool) (db : Store) (u : Z)
        (t : string) (r : RowView) :
  isAdmin u = false ->
  t = "task" \/ t = "note" ->
  (evalWhere (ownershipOrPermissionWhere isAdmin db t u) r = true
   <-> v_user_id r = u \/ granted db u t (v_uid r) \/
       exists proj, In proj (Projects db) /\
                    v_project_id r = Some (p_id proj) /\
                    granted db u "project" (p_uid proj)).
Proof.
  intros Hadmin Ht. rewrite where_item by assumption.
  unfold specConditions. cbn [evalWhere].
  assert (Hb : ((t =? "task") || (t =? "note"))%string = true)
    by (destruct Ht; subst t; reflexivity).
  rewrite Hb. cbn [andb].
  rewrite !existsb_app, !orb_true_iff.
  rewrite uid_condition_iff, project_id_condition_iff.
  cbn [existsb evalCondition]. rewrite orb_false_r, Z.eqb_eq.
  assert (Hpar : (exists pid, v_project_id r = Some pid /\
                              In pid (sharedProjectIds db u))
                 <-> exists proj, In proj (Projects db) /\
                                  v_project_id r = Some (p_id proj) /\
                                  granted db u "project" (p_uid proj)).
  { split.
    - intros [pid [Hr Hin]]. apply sharedProjectIds_iff in Hin.
      destruct Hin as [proj [Hin [Hid Hg]]]. subst pid. now exists proj.
    - intros [proj [Hin [Hr Hg]]]. exists (p_id proj). split; [assumption|].
      apply sharedProjectIds_iff. now exists proj. }
  rewrite Hpar. tauto.
Qed.

Lemma where_item_matches_witness :
  evalWhere (ownershipOrPermissionWhere nobodyAdmin scenario "task" 3)
            (viewOfItem (mkItem "t1" 2 (Some 10))) = true.
Proof.
  apply (where_item_matches nobodyAdmin scenario 3 "task"
           (viewOfItem (mkItem "t1" 2 (Some 10))) eq_refl
           (or_introl eq_refl)).
  right. right. exists (mkProject 10 "p1" 1).
  split; [simpl; tauto|]. split; [reflexivity|].
  exists (mkPermission 3 "project" "p1" "ro"). simpl. tauto.
Defined.

(** ** Levels [getAccess] can return *)

Lemma sharedAccess_range (db : Store) (u : Z) (t uid : string) :
  sharedAccess db u t uid = ACCESS.NONE \/
  exists g, In g (Permissions db) /\ perm_user_id g = u /\
            perm_resource_type g = t /\ perm_resource_uid g = uid /\
            perm_access_level g = sharedAccess db u t uid.
Proof.
  unfold sharedAccess, Permission_findOne.
  destruct (find _ (Permissions db)) as [perm|] eqn:E; [|now left].
  right. apply find_some in E. destruct E as [Hin Hb].
  apply andb_true_iff in Hb. destruct Hb as [Hb Hx].
  apply andb_true_iff in Hb. destruct Hb as [Hu Ht].
  apply Z.eqb_eq in Hu. apply String.eqb_eq in Ht. apply String.eqb_eq in Hx.
  exists perm. tauto.
Qed.

(** A grant that names the resource is found by [Permission.findOne]. *)
Lemma sharedAccess_granted (db : Store) (u : Z) (t uid : string) :
  granted db u t uid ->
  exists g, In g (Permissions db) /\ perm_user_id g = u /\
            perm_access_level g = sharedAccess db u t uid.
Proof.
  intros [g [Hin [Hu [Ht Hx]]]].
  unfold sharedAccess, Permission_findOne.
  destruct (find _ (Permissions db)) as [perm|] eqn:E.
  - apply find_some in E. destruct E as [Hin' Hb].
    apply andb_true_iff in Hb. destruct Hb as [Hb _].
    apply andb_true_iff in Hb. destruct Hb as [Hu' _].
    apply Z.eqb_eq in Hu'. now exists perm.
  - exfalso. apply (find_none _ _ E) in Hin.
    subst u t uid. now rewrite Z.eqb_refl, !String.eqb_refl in Hin.
Qed.

(** The level a user who is not an administrator resolves to is [none],
    [rw], or the stored level of one of that user's own grants, on the
    resource itself or on a project. In particular the answer is [admin]
    only if such a grant stores [admin]. *)
Theorem getAccess_range (isAdmin : Z -> bool) (db : Store) (u : Z)
        (t uid v : string) :
  isAdmin u = false ->
  getAccess isAdmin db u t uid = Some v ->
  v = ACCESS.NONE \/ v = ACCESS.RW \/
  exists g, In g (Permissions db) /\ perm_user_id g = u /\
            (perm_resource_type g = t \/ perm_resource_type g = "project") /\
            perm_access_level g = v.
Proof.
  intros Hadmin.
  assert (Hshared : forall t' uid' w,
             Some (sharedAccess db u t' uid') = Some w ->
             w = ACCESS.NONE \/ w = ACCESS.RW \/
             exists g, In g (Permissions db) /\ perm_user_id g = u /\
                       perm_resource_type g = t' /\
                       perm_access_level g = w).
  { intros t' uid' w Hw. injection Hw as <-.
    destruct (sharedAccess_range db u t' uid') as [H|[g Hg]];
      [now left|].
    right. right. exists g. tauto. }
  assert (Hproject : forall uid' w,
             getAccess isAdmin db u "project" uid' = Some w ->
             w = ACCESS.NONE \/ w = ACCESS.RW \/
             exists g, In g (Permissions db) /\ perm_user_id g = u /\
                       perm_resource_type g = "project" /\
                       perm_access_level g = w).
  { intros uid' w. rewrite getAccess_project by assumption.
    destruct (Project_findOne_uid db uid') as [proj|].
    - destruct (p_user_id proj =? u); [|apply Hshared].
      intros Hw. injection Hw as <-. tauto.
    - intros Hw. injection Hw as <-. tauto. }
  assert (Hitem : forall row,
             itemAccess isAdmin db u t uid row = Some v ->
             v = ACCESS.NONE \/ v = ACCESS.RW \/
             exists g, In g (Permissions db) /\ perm_user_id g = u /\
                       (perm_resource_type g = t \/
                        perm_resource_type g = "project") /\
                       perm_access_level g = v).
  { assert (Hfall : Some (sharedAccess db u t uid) = Some v ->
                    v = ACCESS.NONE \/ v = ACCESS.RW \/
                    exists g, In g (Permissions db) /\ perm_user_id g = u /\
                              (perm_resource_type g = t \/
                               perm_resource_type g = "project") /\
                              perm_access_level g = v).
    { intros Hw. destruct (Hshared _ _ _ Hw) as [H|[H|[g Hg]]];
        [tauto | tauto |].
      right. right. exists g. tauto. }
    intros row. unfold itemAccess.
    destruct row as [x|]; [|intros Hw; injection Hw as <-; tauto].
    destruct (i_user_id x =? u); [intros Hw; injection Hw as <-; tauto|].
    destruct (if truthy (i_project_id x) then i_project_id x else None)
      as [pid|]; [|exact Hfall].
    destruct (Project_findOne_id db pid) as [project|]; [|exact Hfall].
    destruct (getAccess isAdmin db u "project" (p_uid project)) as [pa|]
      eqn:Epa; [|discriminate].
    destruct (negb (pa =? ACCESS.NONE)%string); [|exact Hfall].
    intros Hw. injection Hw as <-.
    destruct (Hproject _ _ Epa) as [H|[H|[g Hg]]]; [tauto | tauto |].
    right. right. exists g. tauto. }
  destruct (String.eqb_spec t "project") as [Ep|Ep].
  { subst t. intros Hv. destruct (Hproject _ _ Hv) as [H|[H|[g Hg]]];
      [tauto | tauto |].
    right. right. exists g. tauto. }
  destruct (String.eqb_spec t "task") as [Et|Et].
  { subst t. rewrite getAccess_task by assumption. apply Hitem. }
  destruct (String.eqb_spec t "note") as [En|En].
  { subst t. rewrite getAccess_note by assumption. apply Hitem. }
  assert (Hk : knownType t = false).
  { unfold knownType. apply String.eqb_neq in Ep, Et, En.
    now rewrite Ep, Et, En. }
  destruct (getAccess_other isAdmin db u t uid Hadmin Hk) as [_ H].
  rewrite H. intros Hw. destruct (Hshared _ _ _ Hw) as [H'|[H'|[g Hg]]];
    [tauto | tauto |].
  right. right. exists g. tauto.
Qed.

Lemma getAccess_range_witness :
  ACCESS.RO = ACCESS.NONE \/ ACCESS.RO = ACCESS.RW \/
  exists g, In g (Permissions scenario) /\ perm_user_id g = 3 /\
            (perm_resource_type g = "task" \/
             perm_resource_type g = "project") /\
            perm_access_level g = ACCESS.RO.
Proof.
  apply (getAccess_range nobodyAdmin scenario 3 "task" "t1" ACCESS.RO);
    reflexivity.
Defined.

(** ** Ownership of the parent project *)

(** In a store that meets the invariants, a user who is not an administrator
    and owns a project gets [rw] on every task and note of that project,
    whoever owns them and whatever grants exist. *)
Theorem project_owner_gets_RW_on_items (isAdmin : Z -> bool) (db : Store)
        (u : Z) (x : ItemRow) (proj : ProjectRow) :
  isAdmin u = false ->
  StoreOK db ->
  In proj (Projects db) ->
  p_user_id proj = u ->
  i_project_id x = Some (p_id proj) ->
  (In x (Tasks db) ->
   getAccess isAdmin db u "task" (i_uid x) = Some ACCESS.RW) /\
  (In x (Notes db) ->
   getAccess isAdmin db u "note" (i_uid x) = Some ACCESS.RW).
Proof.
  intros Hadmin [[Hp [Ht Hn]] Hkeys] Hin Hown Hparent.
  assert (Hproj : getAccess isAdmin db u "project" (p_uid proj)
                  = Some ACCESS.RW).
  { rewrite getAccess_project by assumption.
    rewrite Project_findOne_uid_In by assumption.
    now rewrite Hown, Z.eqb_refl. }
  assert (Hitem : forall t,
             itemAccess isAdmin db u t (i_uid x) (Some x)
             = Some ACCESS.RW).
  { intros t. destruct (Z.eq_dec (i_user_id x) u) as [Heq|Hne].
    - unfold itemAccess. now rewrite Heq, Z.eqb_refl.
    - destruct (itemAccess_inherits isAdmin db u t (i_uid x) x proj
                  Hkeys Hin Hparent Hne) as [pa [Hpa [Hinh _]]].
      assert (pa = ACCESS.RW) by congruence. subst pa.
      apply Hinh. discriminate. }
  split; intros Hx.
  - rewrite getAccess_task by assumption.
    rewrite Task_findOne_uid_In by assumption. apply Hitem.
  - rewrite getAccess_note by assumption.
    rewrite Note_findOne_uid_In by assumption. apply Hitem.
Qed.

Lemma project_owner_gets_RW_on_items_witness :
  getAccess nobodyAdmin scenario 1 "task" "t1" = Some ACCESS.RW.
Proof.
  apply (proj1 (project_owner_gets_RW_on_items nobodyAdmin scenario 1
                  (mkItem "t1" 2 (Some 10)) (mkProject 10 "p1" 1)
                  eq_refl scenario_StoreOK (or_introl eq_refl)
                  eq_refl eq_refl)).
  simpl; tauto.
Defined.

(** ** Listed rows are accessible *)

Lemma itemAccess_listed (isAdmin : Z -> bool) (db : Store) (u : Z)
      (t : string) (x : ItemRow) :
  isAdmin u = false ->
  StoreOK db ->
  (forall g, In g (Permissions db) -> perm_user_id g = u ->
             perm_access_level g <> ACCESS.NONE) ->
  t = "task" \/ t = "note" ->
  evalWhere (ownershipOrPermissionWhere isAdmin db t u) (viewOfItem x)
  = true ->
  exists v, itemAccess isAdmin db u t (i_uid x) (Some x) = Some v /\
            v <> ACCESS.NONE.
Proof.
  intros Hadmin [[Hp _] Hkeys] Hlev Ht Hw.
  apply where_item_matches in Hw; [|assumption|assumption].
  cbn [viewOfItem v_user_id v_uid v_project_id] in Hw.
  destruct (Z.eq_dec (i_user_id x) u) as [Heq|Hne].
  { exists ACCESS.RW. unfold itemAccess. rewrite Heq, Z.eqb_refl.
    split; [reflexivity | discriminate]. }
  destruct Hw as [Hown | [Hdirect | [proj [Hin [Hparent Hg]]]]];
    [contradiction | |].
  - (* a grant on the item itself *)
    destruct (sharedAccess_granted db u t (i_uid x) Hdirect)
      as [g [Hg [Hu Hl]]].
    assert (Hs : sharedAccess db u t (i_uid x) <> ACCESS.NONE)
      by (rewrite <- Hl; now apply Hlev).
    unfold itemAccess. apply Z.eqb_neq in Hne. rewrite Hne.
    destruct (if truthy (i_project_id x) then i_project_id x else None)
      as [pid|]; [|eauto].
    destruct (Project_findOne_id db pid) as [project|]; [|eauto].
    destruct (getAccess_total isAdmin db u "project" (p_uid project))
      as [pa Hpa].
    rewrite Hpa. destruct (String.eqb_spec pa ACCESS.NONE) as [E|E];
      cbn [negb]; eauto.
  - (* a grant on the parent project *)
    destruct (itemAccess_inherits isAdmin db u t (i_uid x) x proj
                Hkeys Hin Hparent Hne) as [pa [Hpa [Hinh _]]].
    assert (Hpa' : pa <> ACCESS.NONE).
    { rewrite getAccess_project in Hpa by assumption.
      rewrite Project_findOne_uid_In in Hpa by assumption.
      destruct (p_user_id proj =? u).
      - injection Hpa as <-. discriminate.
      - injection Hpa as <-.
        destruct (sharedAccess_granted db u "project" (p_uid proj) Hg)
          as [g [Hg' [Hu Hl]]].
        rewrite <- Hl. now apply Hlev. }
    exists pa. split; [now apply Hinh | assumption].
Qed.

(** In a store that meets the invariants and in which no grant of the user
    stores the level [none], every existing project, task or note that
    satisfies the where clause built for the user resolves to a level other
    than [none]: a listing shows nothing the user has no access to. *)
Theorem listed_rows_are_accessible (isAdmin : Z -> bool) (db : Store)
        (u : Z) :
  StoreOK db ->
  (forall g, In g (Permissions db) -> perm_user_id g = u ->
             perm_access_level g <> ACCESS.NONE) ->
  (forall p, In p (Projects db) ->
     evalWhere (ownershipOrPermissionWhere isAdmin db "project" u)
               (viewOfProject p) = true ->
     exists v, getAccess isAdmin db u "project" (p_uid p) = Some v /\
               v <> ACCESS.NONE) /\
  (forall x, In x (Tasks db) ->
     evalWhere (ownershipOrPermissionWhere isAdmin db "task" u)
               (viewOfItem x) = true ->
     exists v, getAccess isAdmin db u "task" (i_uid x) = Some v /\
               v <> ACCESS.NONE) /\
  (forall x, In x (Notes db) ->
     evalWhere (ownershipOrPermissionWhere isAdmin db "note" u)
               (viewOfItem x) = true ->
     exists v, getAccess isAdmin db u "note" (i_uid x) = Some v /\
               v <> ACCESS.NONE).
Proof.
  intros Hok Hlev.
  destruct (isAdmin u) eqn:Hadmin.
  { repeat split; intros r _ _; exists ACCESS.ADMIN;
      (split; [now apply getAccess_admin | discriminate]). }
  pose proof Hok as [[Hp [Ht Hn]] _].
  repeat split.
  - intros p Hin Hw.
    apply where_other_matches in Hw;
      [|assumption|discriminate|discriminate].
    cbn [viewOfProject v_user_id v_uid] in Hw.
    rewrite getAccess_project by assumption.
    rewrite Project_findOne_uid_In by assumption.
    destruct (Z.eqb_spec (p_user_id p) u) as [Heq|Hne].
    + exists ACCESS.RW. split; [reflexivity | discriminate].
    + destruct Hw as [Hown|Hg]; [contradiction|].
      destruct (sharedAccess_granted db u "project" (p_uid p) Hg)
        as [g [Hg' [Hu Hl]]].
      eexists. split; [reflexivity|]. rewrite <- Hl. now apply Hlev.
  - intros x Hin Hw. rewrite getAccess_task by assumption.
    rewrite Task_findOne_uid_In by assumption.
    apply itemAccess_listed; auto.
  - intros x Hin Hw. rewrite getAccess_note by assumption.
    rewrite Note_findOne_uid_In by assumption.
    apply itemAccess_listed; auto.
Qed.

Lemma scenario_levels (u : Z) :
  forall g, In g (Permissions scenario) -> perm_user_id g = u ->
            perm_access_level g <> ACCESS.NONE.
Proof. intros g [<-|[]] _. discriminate. Qed.

Lemma listed_rows_are_accessible_witness :
  exists v, getAccess nobodyAdmin scenario 3 "task" "t1" = Some v /\
            v <> ACCESS.NONE.
Proof.
  apply (proj1 (proj2 (listed_rows_are_accessible nobodyAdmin scenario 3
                         scenario_StoreOK (scenario_levels 3)))
               (mkItem "t1" 2 (Some 10))).
  - simpl; tauto.
  - reflexivity.
Defined.

(** ** Grants of other users *)

Lemma find_filter_implied {A : Type} (f p : A -> bool) (l : list A) :
  (forall a, f a = true -> p a = true) ->
  find f l = find f (filter p l).
Proof.
  intros Himp. induction l as [|a l IH]; simpl; [reflexivity|].
  destruct (f a) eqn:Ef.
  - rewrite (Himp a Ef). simpl. now rewrite Ef.
  - destruct (p a); simpl; [rewrite Ef|]; exact IH.
Qed.

Lemma filter_filter_implied {A : Type} (f p : A -> bool) (l : list A) :
  (forall a, f a = true -> p a = true) ->
  filter f l = filter f (filter p l).
Proof.
  intros Himp. induction l as [|a l IH]; simpl; [reflexivity|].
  destruct (f a) eqn:Ef.
  - rewrite (Himp a Ef). simpl. rewrite Ef. now f_equal.
  - destruct (p a); simpl; [rewrite Ef|]; exact IH.
Qed.

Lemma sharedAccess_grantsOf (db db' : Store) (u : Z) (t uid : string) :
  grantsOf u db = grantsOf u db' ->
  sharedAccess db u t uid = sharedAccess db' u t uid.
Proof.
  intros Hg. unfold sharedAccess, Permission_findOne.
  rewrite (find_filter_implied _ (fun r => perm_user_id r =? u)
                               (Permissions db)).
  - rewrite (find_filter_implied _ (fun r => perm_user_id r =? u)
                                 (Permissions db')).
    + fold (grantsOf u db). fold (grantsOf u db'). now rewrite Hg.
    + intros a Ha. apply andb_true_iff in Ha. destruct Ha as [Ha _].
      apply andb_true_iff in Ha. tauto.
  - intros a Ha. apply andb_true_iff in Ha. destruct Ha as [Ha _].
    apply andb_true_iff in Ha. tauto.
Qed.

Lemma getSharedUidsForUser_grantsOf (db db' : Store) (u : Z) (t : string) :
  grantsOf u db = grantsOf u db' ->
  getSharedUidsForUser db t u = getSharedUidsForUser db' t u.
Proof.
  intros Hg. unfold getSharedUidsForUser, Permission_findAll.
  rewrite (filter_filter_implied _ (fun r => perm_user_id r =? u)
                                 (Permissions db)).
  - rewrite (filter_filter_implied _ (fun r => perm_user_id r =? u)
                                   (Permissions db')).
    + fold (grantsOf u db). fold (grantsOf u db'). now rewrite Hg.
    + intros a Ha. apply andb_true_iff in Ha. tauto.
  - intros a Ha. apply andb_true_iff in Ha. tauto.
Qed.

Lemma getAccess_fuel_grantsOf (isAdmin : Z -> bool) (db db' : Store)
      (u : Z) :
  Projects db = Projects db' ->
  Tasks db = Tasks db' ->
  Notes db = Notes db' ->
  grantsOf u db = grantsOf u db' ->
  forall fuel t uid,
    getAccess_fuel isAdmin db fuel u t uid
    = getAccess_fuel isAdmin db' fuel u t uid.
Proof.
  intros HP HT HN Hg.
  assert (Hs : forall t uid,
             sharedAccess db u t uid = sharedAccess db' u t uid)
    by (intros; now apply sharedAccess_grantsOf).
  induction fuel as [|fuel IH]; intros t uid; [reflexivity|].
  cbn [getAccess_fuel].
  unfold Project_findOne_uid, Project_findOne_id, Task_findOne_uid,
    Note_findOne_uid.
  rewrite <- HP, <- HT, <- HN.
  destruct (isAdmin u); [reflexivity|].
  destruct (t =? "project")%string.
  { destruct (find _ (Projects db)) as [proj|]; [|reflexivity].
    now rewrite Hs. }
  destruct (t =? "task")%string.
  { destruct (find _ (Tasks db)) as [x|]; [|reflexivity].
    destruct (i_user_id x =? u); [reflexivity|].
    destruct (if truthy (i_project_id x) then i_project_id x else None)
      as [pid|]; [|now rewrite Hs].
    destruct (find _ (Projects db)) as [project|]; [|now rewrite Hs].
    now rewrite IH, Hs. }
  destruct (t =? "note")%string; [|now rewrite Hs].
  destruct (find _ (Notes db)) as [x|]; [|reflexivity].
  destruct (i_user_id x =? u); [reflexivity|].
  destruct (if truthy (i_project_id x) then i_project_id x else None)
    as [pid|]; [|now rewrite Hs].
  destruct (find _ (Projects db)) as [project|]; [|now rewrite Hs].
  now rewrite IH, Hs.
Qed.

(** What a user resolves to and what a user is listed depend on that
    user's own grants only: two stores with the same projects, tasks and
    notes, and the same grants to the user, give the same [getAccess] answers
    and the same where clauses for that user, whatever the grants to others
    are. *)
Theorem grants_of_others_are_irrelevant (isAdmin : Z -> bool)
        (db db' : Store) (u : Z) (t uid : string) :
  Projects db = Projects db' ->
  Tasks db = Tasks db' ->
  Notes db = Notes db' ->
  grantsOf u db = grantsOf u db' ->
  getAccess isAdmin db u t uid = getAccess isAdmin db' u t uid /\
  ownershipOrPermissionWhere isAdmin db t u
  = ownershipOrPermissionWhere isAdmin db' t u.
Proof.
  intros HP HT HN Hg. split.
  - unfold getAccess. now apply getAccess_fuel_grantsOf.
  - unfold ownershipOrPermissionWhere, sharedProjectIds,
      Project_findAll_uid_in.
    rewrite <- HP.
    rewrite <- (getSharedUidsForUser_grantsOf db db' u t Hg).
    now rewrite <- (getSharedUidsForUser_grantsOf db db' u "project" Hg).
Qed.

Lemma grants_of_others_are_irrelevant_witness :
  getAccess nobodyAdmin
            (mkStore (Projects scenario) (Tasks scenario) (Notes scenario)
                     (mkPermission 4 "task" "t1" "rw" :: Permissions scenario))
            3 "task" "t1"
  = getAccess nobodyAdmin scenario 3 "task" "t1".
Proof.
  apply (grants_of_others_are_irrelevant nobodyAdmin
           (mkStore (Projects scenario) (Tasks scenario) (Notes scenario)
                    (mkPermission 4 "task" "t1" "rw" :: Permissions scenario))
           scenario 3 "task" "t1");
    reflexivity.
Defined.

(** * The session routes *)


Lemma falsy_text (v : option string) :
  Auth.falsy v = false -> v = Some (Auth.text v).
Proof. destruct v; [reflexivity | discriminate]. Qed.

(** [/login] answers 200, or changes the session at all, only for the email
    of an existing user together with a password that [User.checkPassword]
    accepts against that user's digest; the session then carries that
    user's id. *)
Theorem login_requires_valid_password
        (users : list Auth.UserRow) (checkPassword : string -> string -> bool)
        (isAdmin : string -> bool) (saveOk : bool)
        (email password : option string) (sess : option Auth.Session) :
  Auth.status
    (Auth.response
       (Auth.login users checkPassword isAdmin saveOk email password sess))
  = 200 \/
  Auth.session
    (Auth.login users checkPassword isAdmin saveOk email password sess)
  <> sess ->
  exists user p,
    In user users /\ email = Some (Auth.u_email user) /\
    password = Some p /\
    checkPassword p (Auth.u_password_digest user) = true /\
    Auth.session
      (Auth.login users checkPassword isAdmin saveOk email password sess)
    = Some (Auth.mkSession (Some (Auth.u_id user))).
Proof.
  unfold Auth.login.
  destruct (Auth.falsy email) eqn:Ee;
    [cbn; intros [H|H]; [discriminate | contradiction]|].
  destruct (Auth.falsy password) eqn:Ep;
    [cbn; intros [H|H]; [discriminate | contradiction]|].
  cbn [orb].
  destruct (Auth.User_findOne_email users (Auth.text email)) as [user|]
    eqn:Eu; [|cbn; intros [H|H]; [discriminate | contradiction]].
  apply (find_key_sound Auth.u_email String.eqb String.eqb_eq) in Eu.
  destruct Eu as [Hin Hmail].
  destruct (checkPassword (Auth.text password) (Auth.u_password_digest user))
    eqn:Ec; [|cbn; intros [H|H]; [discriminate | contradiction]].
  cbn [negb].
  destruct sess as [s|];
    [|cbn; intros [H|H]; [discriminate | contradiction]].
  intros _. exists user, (Auth.text password).
  repeat split; try assumption.
  - rewrite Hmail. now apply falsy_text.
  - now apply falsy_text.
  - now destruct saveOk.
Qed.

Lemma login_requires_valid_password_witness :
  exists user p,
    In user [Auth.alice; Auth.bob] /\
    Some "alice@example.org" = Some (Auth.u_email user) /\
    Some "secret" = Some p /\
    Auth.checkDemo p (Auth.u_password_digest user) = true /\
    Auth.session
      (Auth.login [Auth.alice; Auth.bob] Auth.checkDemo Auth.adminDemo true
                  (Some "alice@example.org") (Some "secret")
                  (Some (Auth.mkSession None)))
    = Some (Auth.mkSession (Some (Auth.u_id user))).
Proof.
  apply (login_requires_valid_password
           [Auth.alice; Auth.bob] Auth.checkDemo Auth.adminDemo true
           (Some "alice@example.org") (Some "secret")
           (Some (Auth.mkSession None))).
  left. reflexivity.
Defined.




